(** * USSD Data Manager: the change-request ledger, the catalog transforms
      and the lookup API, embedded from the TypeScript/JavaScript sources and
      verified against the specification.

    Conventions of the embedding.
    - A JavaScript object used as a dictionary ([ServiceMap],
      [ChangeRequestMap], a parsed JSON object) is a [gmap string _] of its
      own properties; its prototype is [Object.prototype].  The handlers of
      the API, [applyTelcoSubset] and the renaming in [setField] index such
      an object with a key taken from a request, from an uploaded file or
      from an input field: there the read is [Js.read], which finds the
      members of [Object.prototype] as the program does, and the assignment
      is [Js.set_member].  The handlers of the ledger are read for the
      service ids and the field paths that the application itself passes
      them, and the export and the full import for the ids other than
      [__proto__].
    - The order in which an object enumerates its keys is not recorded in
      the map: a handler that prints [Object.keys(data)] takes that list as
      an argument.
    - [undefined] is [None]; a JSON value is a [json].
    - A string is a [string] of code units below 128.
    - A handler that reads the clock ([nowISO()]) or the id generator takes
      the value read as an argument. *)

From Stdlib Require Import Ascii String.
From stdpp Require Import gmap strings list fin_maps pretty sorting.

#[local] Open Scope string_scope.
#[local] Set Warnings "-register-all".

(* ================================================================== *)
(** * JavaScript values and the operators the sources apply to them *)
(* ================================================================== *)

Module Js.

(** A value produced by [JSON.parse].  A number is carried by its [String()]
    rendering: [JSON.parse] yields neither NaN nor an infinity, and both
    zeros render as ["0"]. *)
Inductive json :=
  | JNull
  | JBool (b : bool)
  | JNum (repr : string)
  | JStr (s : string)
  | JArr (items : list json)
  | JObj (props : gmap string json).

(** What a statement can complete with besides a value. *)
Inductive exn :=
  | Error (msg : string)
  | TypeError.

Inductive completion (A : Type) :=
  | Return (a : A)
  | Throw (e : exn).
Arguments Return {A} a.
Arguments Throw {A} e.

(** Truthiness, as [!v], [v || d] and [v ? a : b] test it. *)
Definition truthy (v : json) : bool :=
  match v with
  | JNull => false
  | JBool b => b
  | JNum r => negb (String.eqb r "0")
  | JStr s => negb (String.eqb s "")
  | JArr _ | JObj _ => true
  end.

Definition truthy_opt (o : option json) : bool :=
  match o with Some v => truthy v | None => false end.

(** [o ?? d] *)
Definition coalesce (o : option json) (d : json) : json :=
  match o with
  | None | Some JNull => d
  | Some v => v
  end.

(** [String(v)] *)
Fixpoint to_String (v : json) : string :=
  match v with
  | JNull => "null"
  | JBool true => "true"
  | JBool false => "false"
  | JNum r => r
  | JStr s => s
  | JArr l =>
      String.concat ","
        (map (fun x => match x with JNull => "" | _ => to_String x end) l)
  | JObj _ => "[object Object]"
  end.

(** [typeof v === 'object'] *)
Definition typeof_object (v : json) : bool :=
  match v with
  | JNull | JArr _ | JObj _ => true
  | _ => false
  end.

(** [Array.isArray(v)] *)
Definition isArray (v : json) : bool :=
  match v with JArr _ => true | _ => false end.

(** [v.name] for a [v] that is neither [null] nor [undefined] and a [name]
    that no built-in prototype defines (the sources read [service_name],
    [description], [code], [explanation] and the four network names). *)
Definition get (v : json) (name : string) : option json :=
  match v with
  | JObj m => m !! name
  | _ => None
  end.

(** The property names that an object inherits from [Object.prototype]:
    those of ECMAScript 2015 and of its Annex B. *)
Definition Object_prototype : list string :=
  ["constructor"; "hasOwnProperty"; "isPrototypeOf"; "propertyIsEnumerable";
   "toLocaleString"; "toString"; "valueOf"; "__proto__";
   "__defineGetter__"; "__defineSetter__"; "__lookupGetter__";
   "__lookupSetter__"].

Definition inherited (name : string) : bool :=
  bool_decide (name ∈ Object_prototype).

(** What [o[name]] finds in an object [o] that has the own properties [m]
    and the prototype [Object.prototype], as [JSON.parse], an object literal
    and a spread make it: the own property of that name; failing that, the
    member of [Object.prototype] of that name, which is a function or, under
    [__proto__], [Object.prototype] itself; failing that, [undefined]. *)
Inductive member (A : Type) :=
  | Own (a : A)
  | Builtin
  | Undefined.
Arguments Own {A} a.
Arguments Builtin {A}.
Arguments Undefined {A}.

Definition read {A : Type} (m : gmap string A) (name : string) : member A :=
  match m !! name with
  | Some a => Own a
  | None => if inherited name then Builtin else Undefined
  end.

(** [!!x]: a built-in is an object, hence truthy. *)
Definition truthy_member (x : member json) : bool :=
  match x with
  | Own v => truthy v
  | Builtin => true
  | Undefined => false
  end.

(** [x.name] for an [x] that is not [undefined] and a [name] as in [get]:
    neither the functions of [Object.prototype] nor [Object.prototype]
    itself have a property of such a name. *)
Definition member_get (x : member json) (name : string) : option json :=
  match x with
  | Own v => get v name
  | Builtin | Undefined => None
  end.

(** [o[name] = v] on such an object.  Under the name [__proto__], unless
    [o] has an own property of that name, the assignment runs the setter
    that [Object.prototype] defines: no property is stored (and [v], when
    it is an object, becomes the prototype of [o]). *)
Definition set_member {A : Type} (name : string) (v : A) (m : gmap string A)
  : gmap string A :=
  match m !! name with
  | Some _ => <[name := v]> m
  | None => if String.eqb name "__proto__" then m else <[name := v]> m
  end.

(** [Object.entries(v)]; it throws a TypeError on [null]. *)
Definition entries (v : json) : option (list (string * json)) :=
  match v with
  | JNull => None
  | JBool _ | JNum _ => Some []
  | JStr s =>
      Some (imap (fun i c => (pretty i, JStr (String c ""))) (String.list_ascii_of_string s))
  | JArr l => Some (imap (fun i x => (pretty i, x)) l)
  | JObj m => Some (map_to_list m)
  end.

(** [s.split('.')] *)
Fixpoint split_dot (s : string) : list string :=
  match s with
  | "" => [""]
  | String c r =>
      if Ascii.eqb c "."%char then "" :: split_dot r
      else match split_dot r with
           | [] => [String c ""]
           | w :: ws => String c w :: ws
           end
  end.

(** The code units that [trim()] strips, among those below 128. *)
Definition is_space (c : ascii) : bool :=
  let n := nat_of_ascii c in
  (Nat.leb 9 n && Nat.leb n 13) || Nat.eqb n 32.

Definition is_upper (c : ascii) : bool :=
  let n := nat_of_ascii c in Nat.leb 65 n && Nat.leb n 90.

Definition lower_char (c : ascii) : ascii :=
  if is_upper c then ascii_of_nat (nat_of_ascii c + 32) else c.

Fixpoint toLowerCase (s : string) : string :=
  match s with
  | "" => ""
  | String c r => String (lower_char c) (toLowerCase r)
  end.

Fixpoint trimStart (s : string) : string :=
  match s with
  | "" => ""
  | String c r => if is_space c then trimStart r else s
  end.

Fixpoint trimEnd (s : string) : string :=
  match s with
  | "" => ""
  | String c r =>
      let r' := trimEnd r in
      if is_space c && String.eqb r' "" then "" else String c r'
  end.

Definition trim (s : string) : string := trimEnd (trimStart s).

End Js.

Import Js.

(* ================================================================== *)
(** * src/types.ts *)
(* ================================================================== *)

Inductive TelcoKey := mtn | telecel | airteltigo | glo.

(** [Role = 'admin' | 'mtn' | 'telecel' | 'airteltigo' | 'glo'] *)
Inductive Role :=
  | admin
  | telco_role (t : TelcoKey).

Record TelcoInfo := {
  code : string;
  explanation : string;
}.

(** [Record<TelcoKey, TelcoInfo>] *)
Record Telcos := {
  t_mtn : TelcoInfo;
  t_telecel : TelcoInfo;
  t_airteltigo : TelcoInfo;
  t_glo : TelcoInfo;
}.

Record ServiceEntry := {
  service_id : string;
  service_name : string;
  description : option string;
  telcos : Telcos;
  active : bool;
  lastUpdated : string;
}.

Abbreviation ServiceMap := (gmap string ServiceEntry).

Record Session := {
  role : Role;
  displayName : string;
}.

Inductive Status := draft | pending | approved | rejected.

Record ChangeRequest := {
  id : string;
  serviceId : string;
  field : string;
  oldValue : string;
  newValue : string;
  requestedBy : string;
  requestedAt : string;
  status : Status;
  reviewedBy : option string;
  reviewedAt : option string;
  comments : option string;
}.

Abbreviation ChangeRequestMap := (gmap string ChangeRequest).

#[global] Instance TelcoKey_eq_dec : EqDecision TelcoKey.
Proof. solve_decision. Defined.
#[global] Instance Role_eq_dec : EqDecision Role.
Proof. solve_decision. Defined.
#[global] Instance Status_eq_dec : EqDecision Status.
Proof. solve_decision. Defined.

(** The [key] argument of [setTelcoField]: ['code' | 'explanation']. *)
Inductive InfoKey := Code | Explanation.

(** [telcos[telco]] and [telcos[telco] = t] *)
Definition telco_get (k : TelcoKey) (ts : Telcos) : TelcoInfo :=
  match k with
  | mtn => t_mtn ts
  | telecel => t_telecel ts
  | airteltigo => t_airteltigo ts
  | glo => t_glo ts
  end.

Definition telco_set (k : TelcoKey) (t : TelcoInfo) (ts : Telcos) : Telcos :=
  match k with
  | mtn => {| t_mtn := t; t_telecel := t_telecel ts;
              t_airteltigo := t_airteltigo ts; t_glo := t_glo ts |}
  | telecel => {| t_mtn := t_mtn ts; t_telecel := t;
                  t_airteltigo := t_airteltigo ts; t_glo := t_glo ts |}
  | airteltigo => {| t_mtn := t_mtn ts; t_telecel := t_telecel ts;
                     t_airteltigo := t; t_glo := t_glo ts |}
  | glo => {| t_mtn := t_mtn ts; t_telecel := t_telecel ts;
              t_airteltigo := t_airteltigo ts; t_glo := t |}
  end.

(** [info[key]] and [info[key] = v] *)
Definition info_get (k : InfoKey) (t : TelcoInfo) : string :=
  match k with Code => code t | Explanation => explanation t end.

Definition info_set (k : InfoKey) (v : string) (t : TelcoInfo) : TelcoInfo :=
  match k with
  | Code => {| code := v; explanation := explanation t |}
  | Explanation => {| code := code t; explanation := v |}
  end.

Definition telco_name (k : TelcoKey) : string :=
  match k with
  | mtn => "mtn"
  | telecel => "telecel"
  | airteltigo => "airteltigo"
  | glo => "glo"
  end.

Definition key_name (k : InfoKey) : string :=
  match k with Code => "code" | Explanation => "explanation" end.

(** The own keys of a [Record<TelcoKey, TelcoInfo>], read back from a string. *)
Definition telco_of_string (s : string) : option TelcoKey :=
  if String.eqb s "mtn" then Some mtn
  else if String.eqb s "telecel" then Some telecel
  else if String.eqb s "airteltigo" then Some airteltigo
  else if String.eqb s "glo" then Some glo
  else None.

Definition key_of_string (s : string) : option InfoKey :=
  if String.eqb s "code" then Some Code
  else if String.eqb s "explanation" then Some Explanation
  else None.

Definition set_lastUpdated (now : string) (s : ServiceEntry) : ServiceEntry :=
  {| service_id := service_id s; service_name := service_name s;
     description := description s; telcos := telcos s;
     active := active s; lastUpdated := now |}.

Definition set_telcos (ts : Telcos) (s : ServiceEntry) : ServiceEntry :=
  {| service_id := service_id s; service_name := service_name s;
     description := description s; telcos := ts;
     active := active s; lastUpdated := lastUpdated s |}.

(* ================================================================== *)
(** * src/utils.ts *)
(* ================================================================== *)

Module Utils.

Definition TELCOS : list TelcoKey := [mtn; telecel; airteltigo; glo].

(** A [TelcoInfo] as the JSON object it is. *)
Definition telco_json (t : TelcoInfo) : json :=
  JObj (<["code" := JStr (code t)]> (<["explanation" := JStr (explanation t)]> ∅)).

(** The object literal that [toOriginalSchema] stores under [s.service_id]. *)
Definition exported (s : ServiceEntry) : json :=
  JObj (<["service_name" := JStr (service_name s)]>
       (<["mtn" := telco_json (t_mtn (telcos s))]>
       (<["telecel" := telco_json (t_telecel (telcos s))]>
       (<["airteltigo" := telco_json (t_airteltigo (telcos s))]>
       (<["glo" := telco_json (t_glo (telcos s))]> ∅))))).

(** [toOriginalSchema]: the loop over [Object.values(map)].  As for
    [normalizeImported] below, the export is read key by key for the ids
    other than [__proto__]. *)
Definition toOriginalSchema (map : ServiceMap) : json :=
  JObj (map_fold
          (fun _ s out =>
             if active s then <[service_id s := exported s]> out else out)
          ∅ map).

(** [toTelcoSubset], read in the same way. *)
Definition toTelcoSubset (map : ServiceMap) (telco : TelcoKey) : json :=
  JObj (map_fold
          (fun _ s out =>
             if active s then
               let t := telco_get telco (telcos s) in
               <[service_id s := telco_json {| code := code t; explanation := explanation t |}]> out
             else out)
          ∅ map).

(** The inner loop of [normalizeImported] over the four network names. *)
Definition imported_info (obj : json) (key : string) : TelcoInfo :=
  let t := match get obj key with
           | Some v => if truthy v then v else JObj ∅
           | None => JObj ∅
           end in
  {| code := to_String (coalesce (get t "code") (JStr ""));
     explanation := to_String (coalesce (get t "explanation") (JStr "")) |}.

(** The body of the loop of [normalizeImported] for one entry that passes
    the [continue] test; [now] is the clock reading of that iteration. *)
Definition imported_entry (now : string) (service_id : string) (obj : json)
  : ServiceEntry :=
  {| service_id := service_id;
     service_name := to_String (coalesce (get obj "service_name") (JStr service_id));
     description :=
       (if truthy_opt (get obj "description")
        then to_String <$> get obj "description" else None);
     telcos := {| t_mtn := imported_info obj "mtn";
                  t_telecel := imported_info obj "telecel";
                  t_airteltigo := imported_info obj "airteltigo";
                  t_glo := imported_info obj "glo" |};
     active := true;
     lastUpdated := now |}.

(** [normalizeImported]; [clock k] is the clock reading taken while the
    entry under key [k] is built.  The result is read here key by key, for
    the keys other than [__proto__]: under that name the assignment
    [result[service_id] = ...] stores no property (see [set_member]), so
    what the map below holds under [__proto__] is no part of what the
    program returns. *)
Definition normalizeImported (clock : string -> string) (jsonData : json)
  : completion ServiceMap :=
  if negb (typeof_object jsonData) || isArray jsonData then
    Throw (Error "Invalid JSON root. Expected an object.")
  else
    match entries jsonData with
    | None => Throw TypeError
    | Some es =>
        Return (foldl
                  (fun result '(service_id, obj) =>
                     if negb (truthy obj) || negb (typeof_object obj) then result
                     else <[service_id := imported_entry (clock service_id) service_id obj]> result)
                  ∅ es)
    end.

(** One iteration of the loop of [applyTelcoSubset].  The guard
    [if (!next[service_id]) continue] lets a member of [Object.prototype]
    pass; [next[service_id].telcos] is then [undefined], and reading
    [telco] from it throws. *)
Definition apply_patch (clock : string -> string) (telco : TelcoKey)
    (next : ServiceMap) (service_id : string) (patch : json)
  : completion ServiceMap :=
  match read next service_id with
  | Undefined => Return next
  | Builtin => Throw TypeError
  | Own s =>
      match patch with
      | JNull => Throw TypeError
      | _ =>
          let t := telco_get telco (telcos s) in
          let t' :=
            {| code := to_String (coalesce (get patch "code") (JStr (code t)));
               explanation :=
                 to_String (coalesce (get patch "explanation") (JStr (explanation t))) |} in
          Return (<[service_id :=
                     set_lastUpdated (clock service_id)
                       (set_telcos (telco_set telco t' (telcos s)) s)]> next)
      end
  end.

Fixpoint apply_patches (clock : string -> string) (telco : TelcoKey)
    (es : list (string * json)) (next : ServiceMap) : completion ServiceMap :=
  match es with
  | [] => Return next
  | (service_id, patch) :: rest =>
      match apply_patch clock telco next service_id patch with
      | Return next' => apply_patches clock telco rest next'
      | Throw e => Throw e
      end
  end.

(** [applyTelcoSubset]; [JSON.parse(JSON.stringify(map))] copies a
    [ServiceMap] unchanged.  [clock k] is the reading of [nowISO()] taken
    while the entry under key [k] is patched. *)
Definition applyTelcoSubset (clock : string -> string) (map : ServiceMap)
    (telco : TelcoKey) (subset : json) : completion ServiceMap :=
  match entries subset with
  | None => Throw TypeError
  | Some es => apply_patches clock telco es map
  end.

(** What [normalizeImported] keeps of one entry. *)
Definition import_candidate (clock : string -> string) (k : string) (obj : json)
  : option ServiceEntry :=
  if negb (truthy obj) || negb (typeof_object obj) then None
  else Some (imported_entry (clock k) k obj).

(** What a subset import for [telco] keeps of an entry: everything but the
    record of [telco] and [lastUpdated]. *)
Definition same_outside (telco : TelcoKey) (s s' : ServiceEntry) : Prop :=
  service_id s' = service_id s
  /\ service_name s' = service_name s
  /\ description s' = description s
  /\ active s' = active s
  /\ forall t, t <> telco -> telco_get t (telcos s') = telco_get t (telcos s).

(** ... and of a catalog: the same keys, each entry kept in that sense. *)
Definition framed (telco : TelcoKey) (m next : ServiceMap) : Prop :=
  (forall k, m !! k = None -> next !! k = None)
  /\ (forall k s, m !! k = Some s ->
        exists s', next !! k = Some s' /\ same_outside telco s s').

End Utils.

(* ================================================================== *)
(** * src/App.tsx: the catalog, the ledger and their handlers *)
(* ================================================================== *)

Module App.

(** The React state the handlers read and replace. *)
Record World := {
  services : ServiceMap;
  changeRequests : ChangeRequestMap;
  session : option Session;
}.

(** What a handler leaves behind: the next state and the [alert] boxes it
    opened.  Every handler is a [void] function and none of them throws, so
    the caller receives [undefined] whatever happened. *)
Record Outcome := {
  world : World;
  alerts : list string;
}.

(** A bare [return;] *)
Definition unchanged (w : World) : Outcome := {| world := w; alerts := [] |}.

(** [const role = session?.role ?? null] *)
Definition current_role (w : World) : option Role := role <$> session w.

Definition is_admin (r : option Role) : bool :=
  match r with Some admin => true | _ => false end.

(** [role === telco] *)
Definition is_telco (r : option Role) (telco : TelcoKey) : bool :=
  match r with
  | Some (telco_role t) => bool_decide (t = telco)
  | _ => false
  end.

(** [persist(next)] *)
Definition persist (next : ServiceMap) (w : World) : World :=
  {| services := next; changeRequests := changeRequests w; session := session w |}.

(** [setChangeRequests(next); saveChangeRequests(next)] *)
Definition store_requests (next : ChangeRequestMap) (w : World) : World :=
  {| services := services w; changeRequests := next; session := session w |}.

(** [`telcos.${telco}.${key}`] *)
Definition field_path (telco : TelcoKey) (key : InfoKey) : string :=
  "telcos." +:+ telco_name telco +:+ "." +:+ key_name key.

(** [Object.values(requests).find(p)].  The program finds the first match
    in the order of the object's keys, which the map does not record: when
    several requests match, the definition fixes one of them, and which
    one is not determined by the sources. *)
Definition find_request (p : ChangeRequest -> bool) (requests : ChangeRequestMap)
  : option ChangeRequest :=
  List.find p (map snd (map_to_list requests)).

(** [s || d] on strings *)
Definition or_default (s d : string) : string :=
  if String.eqb s "" then d else s.

(** [session?.displayName || d] *)
Definition display_or (w : World) (d : string) : string :=
  match session w with
  | Some s => or_default (displayName s) d
  | None => d
  end.

(** [removeService] *)
Definition removeService (w : World) (id : string) : Outcome :=
  if negb (is_admin (current_role w)) then unchanged w
  else unchanged (persist (delete id (services w)) w).

(** [(info as any)[key] = value].  A [key] other than [code] and
    [explanation] would attach a property that [TelcoInfo] does not declare;
    the record has no place for it. *)
Definition write_key (key value : string) (t : TelcoInfo) : TelcoInfo :=
  match key_of_string key with
  | Some k => info_set k value t
  | None => t
  end.

(** [setTelcoField]; [now] is the reading of [nowISO()] and [fresh] the
    result of [generateChangeRequestId()]. *)
Definition setTelcoField (w : World) (sid : string) (telco : TelcoKey)
    (key : InfoKey) (value : string) (now fresh : string) : Outcome :=
  let role := current_role w in
  if negb (is_admin role || is_telco role telco) then unchanged w
  else
    match services w !! sid with
    | None => unchanged w
    | Some service =>
        let old_value := info_get key (telco_get telco (telcos service)) in
        if is_admin role then
          let s :=
            set_lastUpdated now
              (set_telcos
                 (telco_set telco
                    (info_set key value (telco_get telco (telcos service)))
                    (telcos service))
                 service) in
          unchanged (persist (<[sid := s]> (services w)) w)
        else if is_telco role telco then
          let existingDraft :=
            find_request
              (fun req =>
                 String.eqb (serviceId req) sid
                 && String.eqb (field req) (field_path telco key)
                 && bool_decide (status req = draft))
              (changeRequests w) in
          match existingDraft with
          | Some d =>
              let updatedRequest :=
                {| id := id d; serviceId := serviceId d; field := field d;
                   oldValue := oldValue d; newValue := value;
                   requestedBy := requestedBy d; requestedAt := now;
                   status := status d; reviewedBy := reviewedBy d;
                   reviewedAt := reviewedAt d; comments := comments d |} in
              unchanged
                (store_requests (<[id d := updatedRequest]> (changeRequests w)) w)
          | None =>
              let request :=
                {| id := fresh; serviceId := sid; field := field_path telco key;
                   oldValue := old_value; newValue := value;
                   requestedBy := display_or w "Unknown User";
                   requestedAt := now; status := draft;
                   reviewedBy := None; reviewedAt := None; comments := None |} in
              unchanged (store_requests (<[fresh := request]> (changeRequests w)) w)
          end
        else unchanged w
    end.

(** The block of [approveChangeRequest] that writes the leaf:
    [const [, telco, key] = request.field.split('.')] and the guarded
    assignment.  [now] is the reading of [nowISO()] inside the guard.  The
    paths read here are those whose second component is a network or is
    absent from every object: a path that names a member of
    [Object.prototype] there would make the program write to that built-in
    object, which the catalog does not contain.  [setTelcoField] writes no
    such path. *)
Definition apply_field (request : ChangeRequest) (now : string)
    (service : ServiceEntry) : ServiceEntry :=
  let parts := split_dot (field request) in
  match parts !! 1%nat, parts !! 2%nat with
  | Some telco, Some key =>
      if negb (String.eqb telco "") && negb (String.eqb key "") then
        match telco_of_string telco with
        | Some t =>
            set_lastUpdated now
              (set_telcos
                 (telco_set t
                    (write_key key (newValue request) (telco_get t (telcos service)))
                    (telcos service))
                 service)
        | None => service
        end
      else service
  | _, _ => service
  end.

(** The leaf of the per-network record that a field path addresses, as
    [approveChangeRequest] reads the path: the second and third components
    name the network and the leaf. *)
Definition addressed_leaf (fld : string) : option (TelcoKey * InfoKey) :=
  let parts := split_dot fld in
  match parts !! 1%nat, parts !! 2%nat with
  | Some telco, Some key =>
      match telco_of_string telco, key_of_string key with
      | Some t, Some k => Some (t, k)
      | _, _ => None
      end
  | _, _ => None
  end.

(** [approveChangeRequest]; [now_applied] and [now_reviewed] are its two
    readings of [nowISO()]. *)
Definition approveChangeRequest (w : World) (requestId : string)
    (now_applied now_reviewed : string) : Outcome :=
  if negb (is_admin (current_role w)) then unchanged w
  else
    match changeRequests w !! requestId with
    | None => unchanged w
    | Some request =>
        if negb (bool_decide (status request = pending)) then unchanged w
        else
          match services w !! serviceId request with
          | None => unchanged w
          | Some service =>
              let service' := apply_field request now_applied service in
              let next := <[serviceId request := service']> (services w) in
              let updatedRequest :=
                {| id := id request; serviceId := serviceId request;
                   field := field request; oldValue := oldValue request;
                   newValue := newValue request;
                   requestedBy := requestedBy request;
                   requestedAt := requestedAt request;
                   status := approved;
                   reviewedBy := Some (display_or w "Admin");
                   reviewedAt := Some now_reviewed;
                   comments := comments request |} in
              let nextRequests := <[requestId := updatedRequest]> (changeRequests w) in
              {| world := store_requests nextRequests (persist next w);
                 alerts := ["Change approved: " +:+ field request
                            +:+ " updated for " +:+ service_name service'] |}
          end
    end.

(** [rejectChangeRequest] *)
Definition rejectChangeRequest (w : World) (requestId : string)
    (comments : option string) (now : string) : Outcome :=
  if negb (is_admin (current_role w)) then unchanged w
  else
    match changeRequests w !! requestId with
    | None => unchanged w
    | Some request =>
        if negb (bool_decide (status request = pending)) then unchanged w
        else
          let updatedRequest :=
            {| id := id request; serviceId := serviceId request;
               field := field request; oldValue := oldValue request;
               newValue := newValue request;
               requestedBy := requestedBy request;
               requestedAt := requestedAt request;
               status := rejected;
               reviewedBy := Some (display_or w "Admin");
               reviewedAt := Some now;
               comments := comments |} in
          let nextRequests := <[requestId := updatedRequest]> (changeRequests w) in
          let name :=
            match services w !! serviceId request with
            | Some s => or_default (service_name s) "Unknown Service"
            | None => "Unknown Service"
            end in
          {| world := store_requests nextRequests w;
             alerts := ["Change rejected: " +:+ field request +:+ " for " +:+ name] |}
    end.

(** The update shared by [submitDraftChange] and [recallPendingChange]:
    [{ ...request, status, requestedAt: nowISO() }]. *)
Definition restamp (request : ChangeRequest) (st : Status) (now : string)
  : ChangeRequest :=
  {| id := id request; serviceId := serviceId request;
     field := field request; oldValue := oldValue request;
     newValue := newValue request; requestedBy := requestedBy request;
     requestedAt := now; status := st;
     reviewedBy := reviewedBy request; reviewedAt := reviewedAt request;
     comments := comments request |}.

(** [submitDraftChange] *)
Definition submitDraftChange (w : World) (requestId : string) (now : string)
  : Outcome :=
  match changeRequests w !! requestId with
  | None => unchanged w
  | Some request =>
      if negb (bool_decide (status request = draft)) then unchanged w
      else
        {| world :=
             store_requests
               (<[requestId := restamp request pending now]> (changeRequests w)) w;
           alerts := ["Change request submitted for admin review!"] |}
  end.

(** [cancelDraftChange] *)
Definition cancelDraftChange (w : World) (requestId : string) : Outcome :=
  unchanged (store_requests (delete requestId (changeRequests w)) w).

(** [recallPendingChange] *)
Definition recallPendingChange (w : World) (requestId : string) (now : string)
  : Outcome :=
  match changeRequests w !! requestId with
  | None => unchanged w
  | Some request =>
      if negb (bool_decide (status request = pending)) then unchanged w
      else
        {| world :=
             store_requests
               (<[requestId := restamp request draft now]> (changeRequests w)) w;
           alerts := ["Change recalled! You can now edit and resubmit."] |}
  end.

(** The events of a session, each with the values its handler reads from
    the clock and the id generator. *)
Inductive Action :=
  | Login (s : Session)
  | Logout
  | RemoveService (id : string)
  | Edit (id : string) (telco : TelcoKey) (key : InfoKey) (value now fresh : string)
  | Submit (requestId now : string)
  | Recall (requestId now : string)
  | Approve (requestId now_applied now_reviewed : string)
  | Reject (requestId : string) (comments : option string) (now : string)
  | Cancel (requestId : string).

Definition perform (a : Action) (w : World) : Outcome :=
  match a with
  | Login s =>
      unchanged {| services := services w; changeRequests := changeRequests w;
                   session := Some s |}
  | Logout =>
      unchanged {| services := services w; changeRequests := changeRequests w;
                   session := None |}
  | RemoveService id => removeService w id
  | Edit id telco key value now fresh => setTelcoField w id telco key value now fresh
  | Submit r now => submitDraftChange w r now
  | Recall r now => recallPendingChange w r now
  | Approve r n1 n2 => approveChangeRequest w r n1 n2
  | Reject r c now => rejectChangeRequest w r c now
  | Cancel r => cancelDraftChange w r
  end.

(** A sequence of events, each handler running on the state the previous
    one left. *)
Definition run (acts : list Action) (w : World) : World :=
  foldl (fun w a => world (perform a w)) w acts.

Definition is_recall (a : Action) : bool :=
  match a with Recall _ _ => true | _ => false end.

(** At most one request with status [st] for each (service, field) pair. *)
Definition at_most_one (st : Status) (requests : ChangeRequestMap) : Prop :=
  forall k1 k2 r1 r2,
    requests !! k1 = Some r1 -> requests !! k2 = Some r2 ->
    status r1 = st -> status r2 = st ->
    serviceId r1 = serviceId r2 -> field r1 = field r2 ->
    k1 = k2.

(** The number of requests with status [st] for the pair. *)
Definition count_requests (st : Status) (sid fld : string)
    (requests : ChangeRequestMap) : nat :=
  length
    (List.filter
       (fun r : ChangeRequest =>
          bool_decide (status r = st) && String.eqb (serviceId r) sid
          && String.eqb (field r) fld)
       (map snd (map_to_list requests))).

(** Every request is stored under its own id, as the handlers store it. *)
Definition keyed_by_id (requests : ChangeRequestMap) : Prop :=
  forall k r, requests !! k = Some r -> id r = k.

(** What the handlers keep true of the ledger. *)
Definition ledger_inv (requests : ChangeRequestMap) : Prop :=
  keyed_by_id requests /\ at_most_one draft requests.

(** The status precondition of a transition fails: there is no request
    under [requestId], or its status is not [need]. *)
Definition precondition_fails (w : World) (requestId : string) (need : Status)
  : Prop :=
  forall request,
    changeRequests w !! requestId = Some request -> status request <> need.

(** The only channel from a handler to the person who triggered it is an
    [alert]: something is reported when one is opened. *)
Definition reports_something (o : Outcome) : Prop := alerts o <> [].

End App.

(* ================================================================== *)
(** * src/api/index.js and src/server_readonly.js: the read-only API *)
(* ================================================================== *)

Module Api.

Record Response := {
  status : nat;
  body : json;
}.

(** [(n || '').trim().toLowerCase()] *)
Definition normalizeNetwork (n : string) : string := toLowerCase (trim n).

Definition normalizeService (s : string) : string := toLowerCase (trim s).

(** [['mtn', 'telecel', 'airteltigo', 'glo'].includes(nKey)] *)
Definition valid_network (nKey : string) : bool :=
  bool_decide (nKey ∈ ["mtn"; "telecel"; "airteltigo"; "glo"]).

(** [Object.keys(data).join(', ')]; [keys] is [Object.keys(data)], the own
    keys of [data] in the order in which the object enumerates them. *)
Definition keys_joined (keys : list string) : string :=
  String.concat ", " keys.

(** [{ error: msg }] *)
Definition error_body (msg : string) : json :=
  JObj (<["error" := JStr msg]> ∅).

(** An object literal whose values may be [undefined]: [res.json] drops
    those properties. *)
Definition object_of (props : list (string * option json)) : json :=
  JObj (foldr
          (fun '(k, o) out => match o with Some v => <[k := v]> out | None => out end)
          ∅ props).

(** [handleLookup] of [api/index.js] and the handler of
    [/api/lookup/:service/:network] in [server_readonly.js]; [data] is
    [USSD_DATA], respectively the object that [readData()] returns, and
    [keys] is [Object.keys(data)].  [data[sKey]] is a read by a key taken
    from the request: under the name of a member of [Object.prototype] it
    finds that member when [data] has no service of that name. *)
Definition handleLookup (keys : list string) (data : gmap string json)
    (service network : string) : Response :=
  let sKey := normalizeService service in
  let nKey := normalizeNetwork network in
  let serviceBlob := read data sKey in
  if negb (truthy_member serviceBlob) then
    {| status := 404;
       body := error_body ("Unknown service '" +:+ service
                           +:+ "'. Valid services: " +:+ keys_joined keys) |}
  else if negb (valid_network nKey) then
    {| status := 400;
       body := error_body ("Unknown network '" +:+ network
                           +:+ "'. Valid networks: mtn, telecel, airteltigo, glo") |}
  else
    let entry := member_get serviceBlob nKey in
    if negb (truthy_opt entry) then
      {| status := 404;
         body := error_body ("No entry for network '" +:+ network
                             +:+ "' under service '" +:+ service +:+ "'.") |}
    else
      {| status := 200;
         body := object_of [("code", entry ≫= fun e => get e "code");
                            ("explanation", entry ≫= fun e => get e "explanation")] |}.

(** [blob[n]?.code || null] *)
Definition code_or_null (blob : json) (n : string) : json :=
  let code :=
    match get blob n with
    | None | Some JNull => None
    | Some t => get t "code"
    end in
  match code with
  | Some v => if truthy v then v else JNull
  | None => JNull
  end.

(** The object that [handleCompare] answers with. *)
Definition compared (code_of : string -> json) : json :=
  JObj (<["mtn" := code_of "mtn"]>
       (<["telecel" := code_of "telecel"]>
       (<["airteltigo" := code_of "airteltigo"]>
       (<["glo" := code_of "glo"]> ∅)))).

(** [handleCompare] of [api/index.js] and the handler of
    [/api/compare/:service] in [server_readonly.js]; [keys] is
    [Object.keys(data)].  A member of [Object.prototype] found under [sKey]
    has no property under a network name, so every code is [null]. *)
Definition handleCompare (keys : list string) (data : gmap string json)
    (service : string) : Response :=
  let sKey := normalizeService service in
  let unknown :=
    {| status := 404;
       body := error_body ("Unknown service '" +:+ service
                           +:+ "'. Valid services: " +:+ keys_joined keys) |} in
  match read data sKey with
  | Own blob =>
      if truthy blob then
        {| status := 200; body := compared (code_or_null blob) |}
      else unknown
  | Builtin => {| status := 200; body := compared (fun _ => JNull) |}
  | Undefined => unknown
  end.

(** The contract of [lookup], in the words of the specification: the
    arguments are trimmed and lowercased; then the answer is the pair of the
    entry's code and explanation, or "not found" if the service is unknown,
    "invalid argument" if the network is not one of the four fixed
    identifiers, "not found" if the service has no entry for the network. *)
Inductive LookupResult :=
  | Found (code explanation : option json)
  | NotFound
  | InvalidArgument.

Definition known (o : option json) : option json :=
  match o with
  | Some v => if truthy v then Some v else None
  | None => None
  end.

Definition lookup_contract (data : gmap string json) (service network : string)
  : LookupResult :=
  match known (data !! toLowerCase (trim service)) with
  | None => NotFound
  | Some blob =>
      match telco_of_string (toLowerCase (trim network)) with
      | None => InvalidArgument
      | Some t =>
          match known (get blob (telco_name t)) with
          | None => NotFound
          | Some entry => Found (get entry "code") (get entry "explanation")
          end
      end
  end.

(** How a client reads a response of [lookup]. *)
Definition read_lookup (r : Response) : option LookupResult :=
  if Nat.eqb (status r) 200 then
    Some (Found (get (body r) "code") (get (body r) "explanation"))
  else if Nat.eqb (status r) 404 then Some NotFound
  else if Nat.eqb (status r) 400 then Some InvalidArgument
  else None.

Definition network_blob (code explanation : string) : json :=
  JObj (<["code" := JStr code]> (<["explanation" := JStr explanation]> ∅)).

(** [USSD_DATA] of [api/index.js], and its keys as the literal lists
    them. *)
Definition USSD_DATA_keys : list string := ["check_balance"; "borrow_credit"].

Definition USSD_DATA : gmap string json :=
  <["check_balance" :=
      JObj (<["service_name" := JStr "Check Airtime Balance"]>
           (<["mtn" := network_blob "*124#" "Checks your main airtime balance on MTN."]>
           (<["telecel" := network_blob "*124#" "Checks your main airtime balance on Telecel."]>
           (<["airteltigo" := network_blob "*134#" "Checks your main airtime balance on AirtelTigo."]>
           (<["glo" := network_blob "*124#" "Checks your main airtime balance on Glo."]> ∅)))))]>
  (<["borrow_credit" :=
      JObj (<["service_name" := JStr "Borrow Credit / Airtime"]>
           (<["mtn" := network_blob "*155#" "Lends you airtime to be paid back on your next recharge."]>
           (<["telecel" := network_blob "*505#" "Telecel's 'SOS Credit' service."]>
           (<["airteltigo" := network_blob "*130#" "AirtelTigo's 'SOS Credit' service."]>
           (<["glo" := network_blob "*305#" "Glo's 'Borrow Me Credit' service."]> ∅)))))]> ∅).

End Api.

(* ================================================================== *)
(** * Sample data: the state the application starts from *)
(* ================================================================== *)

Module Sample.
Import App.

(** The first entry of [sampleData] in [App.tsx], as [normalizeImported]
    builds it at the given time. *)
Definition check_balance : ServiceEntry :=
  {| service_id := "check_balance";
     service_name := "Check Airtime Balance";
     description := Some "Enter the USSD code customers dial to check their main airtime balance. Explanation should be clear and mention it's for airtime (not data) balance.";
     telcos :=
       {| t_mtn := {| code := "*124#"; explanation := "Checks your main airtime balance on MTN." |};
          t_telecel := {| code := "*124#"; explanation := "Checks your main airtime balance on Telecel." |};
          t_airteltigo := {| code := "*134#"; explanation := "Checks your main airtime balance on AirtelTigo." |};
          t_glo := {| code := "*124#"; explanation := "Checks your main airtime balance on Glo." |} |};
     active := true;
     lastUpdated := "2025-11-01T09:30:00.000Z" |}.

(** A catalog of one service: [sampleData] holds a second one,
    [borrow_credit], which the examples do not need. *)
Definition catalog : ServiceMap := {[ "check_balance" := check_balance ]}.

Definition the_admin : Session := {| role := admin; displayName := "Ama" |}.
Definition mtn_rep : Session := {| role := telco_role mtn; displayName := "Kofi" |}.

(** A small installation: the catalog of one service, an empty ledger,
    nobody logged in. *)
Definition start : World :=
  {| services := catalog; changeRequests := ∅; session := None |}.

(** The MTN representative proposes a new balance code and submits it; the
    administrator logs in. *)
Definition submitted : World :=
  run [Login mtn_rep;
       Edit "check_balance" mtn Code "*125#" "2025-11-02T08:00:00.000Z" "cr_1";
       Submit "cr_1" "2025-11-02T08:01:00.000Z";
       Logout;
       Login the_admin] start.

(** The request that [submitted] holds under [cr_1]. *)
Definition request_cr_1 : ChangeRequest :=
  {| id := "cr_1"; serviceId := "check_balance";
     field := "telcos.mtn.code"; oldValue := "*124#";
     newValue := "*125#"; requestedBy := "Kofi";
     requestedAt := "2025-11-02T08:01:00.000Z"; status := pending;
     reviewedBy := None; reviewedAt := None; comments := None |}.

(** As [submitted], but the administrator deletes the service before
    reviewing the request. *)
Definition orphaned : World :=
  run [RemoveService "check_balance"] submitted.

(** The representative edits and submits the same field twice. *)
Definition submitted_twice : World :=
  run [Login mtn_rep;
       Edit "check_balance" mtn Code "*125#" "2025-11-02T08:00:00.000Z" "cr_1";
       Submit "cr_1" "2025-11-02T08:01:00.000Z";
       Edit "check_balance" mtn Code "*126#" "2025-11-02T08:02:00.000Z" "cr_2";
       Submit "cr_2" "2025-11-02T08:03:00.000Z"] start.

(** The representative submits an edit, edits the field again and recalls
    the submitted request. *)
Definition recalled_beside_draft : World :=
  run [Login mtn_rep;
       Edit "check_balance" mtn Code "*125#" "2025-11-02T08:00:00.000Z" "cr_1";
       Submit "cr_1" "2025-11-02T08:01:00.000Z";
       Edit "check_balance" mtn Code "*126#" "2025-11-02T08:02:00.000Z" "cr_2";
       Recall "cr_1" "2025-11-02T08:03:00.000Z"] start.

(** A subset file of the MTN representative: a new code for a known
    service, and a [null] patch for a service that the catalog lacks. *)
Definition mtn_subset : json :=
  JObj (<["check_balance" := JObj {[ "code" := JStr "*555#" ]}]>
       (<["ghost" := JNull]> ∅)).

(** A data file with a service whose MTN code is empty and which has no
    record for the other networks. *)
Definition sparse_data : gmap string json :=
  {[ "new_service_1" :=
       JObj (<["service_name" := JStr "New Service"]>
            (<["mtn" := Api.network_blob "" ""]> ∅)) ]}.

End Sample.

(* ================================================================== *)
(** * src/App.tsx: catalog administration, versions, import and login *)
(* ================================================================== *)

Module Admin.
Import App.

(** [`${baseId}_${idx}`] with [baseId = 'new_service'] *)
Definition new_service_id (idx : nat) : string := "new_service_" +:+ pretty idx.

(** The loop [while (services[sid]) { idx += 1; sid = ... }] of
    [addService], entered with [idx] and cut after [fuel] tests. *)
Fixpoint first_free (services : ServiceMap) (fuel idx : nat) : option string :=
  match fuel with
  | O => None
  | S fuel' =>
      match services !! new_service_id idx with
      | Some _ => first_free services fuel' (S idx)
      | None => Some (new_service_id idx)
      end
  end.

(** The entry that [addService] creates. *)
Definition new_entry (sid now : string) : ServiceEntry :=
  {| service_id := sid;
     service_name := "New Service";
     description := Some "Provide guidance here for telco reps on what codes and explanations are expected for this service.";
     telcos := {| t_mtn := {| code := ""; explanation := "" |};
                  t_telecel := {| code := ""; explanation := "" |};
                  t_airteltigo := {| code := ""; explanation := "" |};
                  t_glo := {| code := ""; explanation := "" |} |};
     active := true;
     lastUpdated := now |}.

(** [addService].  The loop is given one test more than the catalog has
    entries; [None] stands for a loop that is still running then. *)
Definition addService (w : World) (now : string) : option Outcome :=
  if negb (is_admin (current_role w)) then Some (unchanged w)
  else
    match first_free (services w) (S (size (services w))) 1 with
    | Some sid =>
        Some (unchanged (persist (<[sid := new_entry sid now]> (services w)) w))
    | None => None
    end.

(** The [field] and [value] arguments of [setField], with the value typed
    as [ServiceEntry] types the field. *)
Inductive FieldValue :=
  | F_service_id (value : string)
  | F_service_name (value : string)
  | F_description (value : option string)
  | F_telcos (value : Telcos)
  | F_active (value : bool)
  | F_lastUpdated (value : string).

(** [field === 'service_id' || field === 'service_name' || field === 'active'] *)
Definition admin_only (f : FieldValue) : bool :=
  match f with
  | F_service_id _ | F_service_name _ | F_active _ => true
  | _ => false
  end.

(** [(s as any)[field] = value] *)
Definition assign (f : FieldValue) (s : ServiceEntry) : ServiceEntry :=
  match f with
  | F_service_id v =>
      {| service_id := v; service_name := service_name s;
         description := description s; telcos := telcos s;
         active := active s; lastUpdated := lastUpdated s |}
  | F_service_name v =>
      {| service_id := service_id s; service_name := v;
         description := description s; telcos := telcos s;
         active := active s; lastUpdated := lastUpdated s |}
  | F_description v =>
      {| service_id := service_id s; service_name := service_name s;
         description := v; telcos := telcos s;
         active := active s; lastUpdated := lastUpdated s |}
  | F_telcos v => set_telcos v s
  | F_active v =>
      {| service_id := service_id s; service_name := service_name s;
         description := description s; telcos := telcos s;
         active := v; lastUpdated := lastUpdated s |}
  | F_lastUpdated v => set_lastUpdated v s
  end.

(** [setField], called on a service of the catalog.  The new key of a
    renamed service is typed by the administrator: [next[value] = existing]
    is a [set_member]. *)
Definition setField (w : World) (id : string) (f : FieldValue) (now : string)
  : Outcome :=
  match services w !! id with
  | None => unchanged w
  | Some s =>
      if negb (is_admin (current_role w)) && admin_only f then unchanged w
      else
        match f with
        | F_service_id value =>
            if negb (String.eqb value id) then
              let existing := set_lastUpdated now (assign f s) in
              unchanged
                (persist (set_member value existing (delete id (services w))) w)
            else
              unchanged (persist (<[id := set_lastUpdated now (assign f s)]> (services w)) w)
        | _ =>
            unchanged (persist (<[id := set_lastUpdated now (assign f s)]> (services w)) w)
        end
  end.

Record VersionRecord := {
  timestamp : string;
  label : string;
  snapshot : ServiceMap;
}.

(** The local-time fields of a [Date] that [tsLabel] reads; [month] is
    [getMonth()], which counts from 0. *)
Record LocalTime := {
  year : N;
  month : N;
  day : N;
  hours : N;
  minutes : N;
  seconds : N;
}.

(** [s.padStart(2, '0')] *)
Definition padStart2 (s : string) : string :=
  match s with
  | "" => "00"
  | String c "" => String "0" (String c "")
  | _ => s
  end.

(** [pad] of [tsLabel] *)
Definition pad (n : N) : string := padStart2 (pretty n).

(** [tsLabel] of [utils.ts] *)
Definition tsLabel (d : LocalTime) : string :=
  pretty (year d) +:+ "-" +:+ pad (month d + 1)%N +:+ "-" +:+ pad (day d)
  +:+ " " +:+ pad (hours d) +:+ ":" +:+ pad (minutes d) +:+ ":" +:+ pad (seconds d).

(** [saveVersion]: the next list of versions and the alert; [d] and [iso]
    are the local fields and the [toISOString()] of the [Date] it takes.
    The snapshot is a deep copy of the catalog. *)
Definition saveVersion (versions : list VersionRecord) (w : World)
    (d : LocalTime) (iso : string) : list VersionRecord * list string :=
  let rec := {| timestamp := iso; label := tsLabel d; snapshot := services w |} in
  (take 5 (rec :: versions), ["Saved new version: " +:+ tsLabel d]).

(** [restoreVersion] *)
Definition restoreVersion (versions : list VersionRecord) (w : World) (i : nat)
  : Outcome :=
  match versions !! i with
  | None => unchanged w
  | Some rec =>
      {| world := persist (snapshot rec) w;
         alerts := ["Restored version: " +:+ label rec] |}
  end.

(** What [JSON.parse(String(reader.result))] makes of the chosen file. *)
Inductive FileText :=
  | Parses (value : json)
  | SyntaxError (message : string).

(** [err.message]; the text of a [TypeError] is the engine's. *)
Definition message_of (e : exn) (engine : string) : string :=
  match e with
  | Error msg => msg
  | TypeError => engine
  end.

(** The [onload] callback of [handleImport]. *)
Definition handleImport (w : World) (file : FileText)
    (clock : string -> string) (engine : string) : Outcome :=
  let failed msg := {| world := w; alerts := ["Import failed: " +:+ msg] |} in
  match file with
  | SyntaxError msg => failed msg
  | Parses parsed =>
      match current_role w with
      | Some admin =>
          match Utils.normalizeImported clock parsed with
          | Return normalized =>
              {| world := persist normalized w; alerts := ["Import successful."] |}
          | Throw e => failed (message_of e engine)
          end
      | Some (telco_role t) =>
          match Utils.applyTelcoSubset clock (services w) t parsed with
          | Return next =>
              {| world := persist next w; alerts := ["Import successful."] |}
          | Throw e => failed (message_of e engine)
          end
      | None => {| world := w; alerts := ["Import successful."] |}
      end
  end.

(** [handleLogin] of the [Login] component: the session handed to
    [onLogin], or the text given to [setError]. *)
Definition handleLogin (name : string) (r : Role) (password : string)
  : string + Session :=
  let correctPassword :=
    match r with admin => "password12345!" | _ => "password54321!" end in
  if negb (String.eqb password correctPassword) then
    inl "Invalid password. Please check your credentials."
  else if String.eqb (trim name) "" then
    inl "Please enter your display name."
  else inr {| role := r; displayName := trim name |}.

(** The record that [saveVersion] makes of a state, a date and its ISO
    rendering. *)
Definition record_of (s : World * LocalTime * string) : VersionRecord :=
  {| timestamp := s.2; label := tsLabel s.1.2; snapshot := services s.1.1 |}.

(** A series of saves, each in its own state and at its own time. *)
Definition save_all (versions : list VersionRecord)
    (saves : list (World * LocalTime * string)) : list VersionRecord :=
  foldl (fun vs s => (saveVersion vs s.1.1 s.1.2 s.2).1) versions saves.

(** The password that [handleLogin] expects for a role. *)
Definition password_of (r : Role) : string :=
  match r with admin => "password12345!" | _ => "password54321!" end.

(** A request as the handlers leave it: its field is a path written by
    [setTelcoField], and it carries a reviewer exactly when it has been
    reviewed. *)
Definition request_wf (r : ChangeRequest) : Prop :=
  (exists t k, field r = field_path t k)
  /\ match status r with
     | draft | pending => reviewedBy r = None /\ reviewedAt r = None
     | approved | rejected => is_Some (reviewedBy r) /\ is_Some (reviewedAt r)
     end.

Definition ledger_wf (requests : ChangeRequestMap) : Prop :=
  keyed_by_id requests /\ forall k r, requests !! k = Some r -> request_wf r.

(** [approved] and [rejected]: the request has been reviewed. *)
Definition reviewed (r : ChangeRequest) : bool :=
  match status r with
  | approved | rejected => true
  | _ => false
  end.

(** The action leaves the request stored under [k] alone when it is not
    its cancellation and does not store a new draft under [k]. *)
Definition spares (a : Action) (k : string) : Prop :=
  match a with
  | Cancel requestId => requestId <> k
  | Edit _ _ _ _ _ fresh => fresh <> k
  | _ => True
  end.

End Admin.

(* ================================================================== *)
(** * The service list of the read-only API and the writing server *)
(* ================================================================== *)

Module Endpoints.
Import Api.

(** [typeof blob.service_name === 'string'], with the name, for an entry
    that is an object with the properties [props]. *)
Definition name_of (props : gmap string json) : option string :=
  match props !! "service_name" with
  | Some (JStr s) => Some s
  | _ => None
  end.

(** [blob[nKey]] is truthy, for such an entry: [nKey] comes from the query
    string, so the read finds the members of [Object.prototype] too. *)
Definition has_network (nKey : string) (props : gmap string json) : bool :=
  truthy_member (read props nKey).

(** The loop of [handleListServices] that fills [names]; [keep] is the
    test on the entry's network.  Reading a property of [null] throws.  An
    entry that is an array, a string, a number or a boolean has no
    [service_name], own or inherited, and is passed over whatever the test
    on the network finds. *)
Fixpoint collect_names (keep : gmap string json -> bool) (blobs : list json)
  : completion (list string) :=
  match blobs with
  | [] => Return []
  | JNull :: _ => Throw TypeError
  | blob :: rest =>
      match collect_names keep rest with
      | Throw e => Throw e
      | Return names =>
          match blob with
          | JObj props =>
              match name_of props with
              | Some n => if keep props then Return (n :: names) else Return names
              | None => Return names
              end
          | _ => Return names
          end
      end
  end.

(** [names.sort()]: by code units. *)
Definition sort_names (names : list string) : list string :=
  merge_sort String.le names.

(** The test that [handleListServices] puts to an entry: with a
    [network] parameter that is not empty, [blob[nKey]] is truthy; without
    one, nothing. *)
Definition network_test (network : option string)
  : gmap string json -> bool :=
  match network with
  | Some n =>
      if String.eqb n "" then fun _ => true
      else has_network (normalizeNetwork n)
  | None => fun _ => true
  end.

(** [handleListServices] of [api/index.js] and the handler of
    [/api/services] in [server_readonly.js]; [network] is the query
    parameter, if any. *)
Definition handleListServices (data : gmap string json) (network : option string)
  : completion Response :=
  match collect_names (network_test network) (map snd (map_to_list data)) with
  | Throw e => Throw e
  | Return names =>
      Return {| status := 200; body := JArr (map JStr (sort_names names)) |}
  end.

(** The name under which an entry is listed, if it is. *)
Definition listed_name (network : option string) (blob : json) : option string :=
  match blob with
  | JObj props =>
      match name_of props with
      | Some n => if network_test network props then Some n else None
      | None => None
      end
  | _ => None
  end.

End Endpoints.

Module Server.
Import Api.

(** What a handler of the writing server does besides answering: the
    object it hands to [writeData], if it gets that far. *)
Record Effect := {
  response : Response;
  written : option (gmap string json);
}.

(** [{ ...v }]: the own enumerable properties of [v]; spreading [null]
    gives none. *)
Definition spread (v : json) : gmap string json :=
  match entries v with
  | Some es => list_to_map es
  | None => ∅
  end.

(** [{ success: true, message: msg }] *)
Definition success_body (msg : string) : json :=
  JObj (<["success" := JBool true]> (<["message" := JStr msg]> ∅)).

(** The tail that the three writing handlers share:
    [if (writeData(data)) res.json(...) else res.status(500).json(...)];
    [ok] is what [writeData] returns. *)
Definition save (data : gmap string json) (ok : bool) (msg : string) : Effect :=
  {| response :=
       if ok then {| status := 200; body := success_body msg |}
       else {| status := 500; body := error_body "Failed to save data" |};
     written := Some data |}.

Definition refuse (code : nat) (msg : string) : Effect :=
  {| response := {| status := code; body := error_body msg |}; written := None |}.

(** [{ ...x }] for what a read has found: the functions of
    [Object.prototype] and [Object.prototype] itself have no enumerable
    property of their own. *)
Definition spread_member (x : member json) : gmap string json :=
  match x with
  | Own v => spread v
  | Builtin | Undefined => ∅
  end.

(** [app.put('/api/data/:service')]; [data] is what [readData()] returns.
    [data[sKey]] is read, and then assigned, by a key taken from the
    request. *)
Definition put_data (data : gmap string json) (service : string)
    (updates : json) (ok : bool) : Effect :=
  let sKey := normalizeService service in
  let old := read data sKey in
  if negb (truthy_member old) then
    refuse 404 ("Service '" +:+ service +:+ "' not found")
  else
    save (set_member sKey (JObj (spread updates ∪ spread_member old)) data) ok
      ("Service '" +:+ service +:+ "' updated").

(** [app.post('/api/data')]; [body] is [req.body]. *)
Definition post_data (data : gmap string json) (body : json) (ok : bool)
  : completion Effect :=
  match body with
  | JNull => Throw TypeError
  | _ =>
      match get body "service_id" with
      | Some (JStr service_id) =>
          if String.eqb service_id "" then
            Return (refuse 400 "service_id is required")
          else
            let sKey := normalizeService service_id in
            if truthy_member (read data sKey) then
              Return (refuse 409 ("Service '" +:+ service_id +:+ "' already exists"))
            else
              Return (save (set_member sKey
                              (JObj (delete "service_id" (spread body))) data) ok
                        ("Service '" +:+ service_id +:+ "' created"))
      | Some v =>
          if truthy v then Throw TypeError
          else Return (refuse 400 "service_id is required")
      | None => Return (refuse 400 "service_id is required")
      end
  end.

(** [app.delete('/api/data/:service')] *)
Definition delete_data (data : gmap string json) (service : string) (ok : bool)
  : Effect :=
  let sKey := normalizeService service in
  if truthy_member (read data sKey) then
    save (delete sKey data) ok ("Service '" +:+ service +:+ "' deleted")
  else refuse 404 ("Service '" +:+ service +:+ "' not found").

(** The file after the handler, when [writeData] succeeds. *)
Definition file_after (data : gmap string json) (e : Effect) : gmap string json :=
  match written e with
  | Some d => d
  | None => data
  end.

(** [ENABLE_WRITE_OPERATIONS] and [API_KEY] of the protected server. *)
Record Config := {
  enable_write_operations : bool;
  api_key : option string;
}.

(** [requireWriteAccess]: the refusal, or [None] for [next()];
    [header] is [req.headers['x-api-key']]. *)
Definition requireWriteAccess (cfg : Config) (header : option string)
  : option Response :=
  if negb (enable_write_operations cfg) then
    Some {| status := 403;
            body := error_body "Write operations are disabled. This API is read-only for MCP server access." |}
  else
    match api_key cfg with
    | Some key =>
        if negb (String.eqb key "") && negb (bool_decide (header = Some key)) then
          Some {| status := 401;
                  body := error_body "Unauthorized. Valid API key required for write operations." |}
        else None
    | None => None
    end.

(** A route registered behind [requireWriteAccess]. *)
Definition protected (cfg : Config) (header : option string) (handler : Effect)
  : Effect :=
  match requireWriteAccess cfg header with
  | Some r => {| response := r; written := None |}
  | None => handler
  end.

End Server.

(* ================================================================== *)
(** * The change-request ledger *)
(* ================================================================== *)

Section Ledger.
Import App.

(** The paths that [setTelcoField] writes address the leaf they were
    written for. *)
Lemma addressed_leaf_field_path (telco : TelcoKey) (key : InfoKey) :
  addressed_leaf (field_path telco key) = Some (telco, key).
Proof. destruct telco, key; reflexivity. Qed.

Lemma apply_field_addressed (request : ChangeRequest) (now : string)
    (service : ServiceEntry) (telco : TelcoKey) (key : InfoKey) :
  addressed_leaf (field request) = Some (telco, key) ->
  apply_field request now service =
    set_lastUpdated now
      (set_telcos
         (telco_set telco
            (info_set key (newValue request) (telco_get telco (telcos service)))
            (telcos service))
         service).
Proof.
  unfold addressed_leaf, apply_field.
  destruct (split_dot (field request) !! 1%nat) as [t|]; [|done].
  destruct (split_dot (field request) !! 2%nat) as [k|]; [|done].
  destruct (telco_of_string t) as [t'|] eqn:Ht; [|done].
  destruct (key_of_string k) as [k'|] eqn:Hk; [|done].
  intros [= <- <-].
  destruct (String.eqb_spec t "") as [->|_]; [done|].
  destruct (String.eqb_spec k "") as [->|_]; [done|].
  cbn. unfold write_key. by rewrite Hk.
Qed.

Lemma telco_get_set (t : TelcoKey) (i : TelcoInfo) (ts : Telcos) :
  telco_get t (telco_set t i ts) = i.
Proof. destruct t; reflexivity. Qed.

Lemma telco_get_set_ne (t t' : TelcoKey) (i : TelcoInfo) (ts : Telcos) :
  t <> t' -> telco_get t' (telco_set t i ts) = telco_get t' ts.
Proof. destruct t, t'; intros H; try reflexivity; contradiction. Qed.

Lemma info_get_set (k : InfoKey) (v : string) (i : TelcoInfo) :
  info_get k (info_set k v i) = v.
Proof. destruct k; reflexivity. Qed.

(** C1.  When the administrator approves a pending request whose service
    is in the catalog, the leaf that the request's field path addresses
    holds the request's new value afterwards, the service's [lastUpdated] is
    the clock reading of the approval, and the request is [approved] with
    [reviewedBy] and [reviewedAt] stamped.  The field path is one that
    addresses a leaf: [telcos.<network>.<code|explanation>], as
    [setTelcoField] writes it. *)
Theorem approve_applies_change (w : World)
    (requestId now_applied now_reviewed : string)
    (request : ChangeRequest) (service : ServiceEntry)
    (telco : TelcoKey) (key : InfoKey) :
  current_role w = Some admin ->
  changeRequests w !! requestId = Some request ->
  status request = pending ->
  services w !! serviceId request = Some service ->
  addressed_leaf (field request) = Some (telco, key) ->
  let w' := world (approveChangeRequest w requestId now_applied now_reviewed) in
  (exists service',
      services w' !! serviceId request = Some service'
      /\ info_get key (telco_get telco (telcos service')) = newValue request
      /\ lastUpdated service' = now_applied)
  /\ (exists request',
      changeRequests w' !! requestId = Some request'
      /\ status request' = approved
      /\ reviewedBy request' = Some (display_or w "Admin")
      /\ reviewedAt request' = Some now_reviewed).
Proof.
  intros Hrole Hreq Hst Hsvc Hfield w'. subst w'.
  unfold approveChangeRequest.
  rewrite Hrole, Hreq, Hst, Hsvc. cbn.
  rewrite (apply_field_addressed _ _ _ _ _ Hfield).
  split.
  - eexists. split; [apply lookup_insert_eq|].
    cbn. rewrite telco_get_set, info_get_set. done.
  - eexists. split; [apply lookup_insert_eq|]. done.
Qed.

Lemma approve_applies_change_witness :
  let w' := world (approveChangeRequest Sample.submitted "cr_1"
                     "2025-11-03T10:00:00.000Z" "2025-11-03T10:00:00.001Z") in
  (exists service',
      services w' !! "check_balance" = Some service'
      /\ code (t_mtn (telcos service')) = "*125#"
      /\ lastUpdated service' = "2025-11-03T10:00:00.000Z")
  /\ (exists request',
      changeRequests w' !! "cr_1" = Some request'
      /\ status request' = approved
      /\ reviewedBy request' = Some "Ama"
      /\ reviewedAt request' = Some "2025-11-03T10:00:00.001Z").
Proof.
  apply (approve_applies_change Sample.submitted "cr_1"
           "2025-11-03T10:00:00.000Z" "2025-11-03T10:00:00.001Z"
           {| id := "cr_1"; serviceId := "check_balance";
              field := "telcos.mtn.code"; oldValue := "*124#";
              newValue := "*125#"; requestedBy := "Kofi";
              requestedAt := "2025-11-02T08:01:00.000Z"; status := pending;
              reviewedBy := None; reviewedAt := None; comments := None |}
           Sample.check_balance mtn Code); vm_compute; reflexivity.
Defined.

(** C3, as the code has it.  Approving a pending request whose service is
    no longer in the catalog returns at the guard [if (!service) return;]:
    the catalog and the ledger are both left as they were, so the request
    stays [pending], and no alert is opened. *)
Theorem approve_without_service_is_noop (w : World)
    (requestId now_applied now_reviewed : string) (request : ChangeRequest) :
  current_role w = Some admin ->
  changeRequests w !! requestId = Some request ->
  status request = pending ->
  services w !! serviceId request = None ->
  approveChangeRequest w requestId now_applied now_reviewed = unchanged w
  /\ changeRequests
       (world (approveChangeRequest w requestId now_applied now_reviewed))
       !! requestId = Some request.
Proof.
  intros Hrole Hreq Hst Hsvc.
  unfold approveChangeRequest.
  rewrite Hrole, Hreq, Hst, Hsvc. cbn. done.
Qed.

Lemma approve_without_service_is_noop_witness :
  approveChangeRequest Sample.orphaned "cr_1"
    "2025-11-03T10:00:00.000Z" "2025-11-03T10:00:00.001Z"
  = unchanged Sample.orphaned
  /\ changeRequests
       (world (approveChangeRequest Sample.orphaned "cr_1"
                 "2025-11-03T10:00:00.000Z" "2025-11-03T10:00:00.001Z"))
       !! "cr_1" = Some Sample.request_cr_1.
Proof.
  apply (approve_without_service_is_noop Sample.orphaned "cr_1"
           "2025-11-03T10:00:00.000Z" "2025-11-03T10:00:00.001Z" Sample.request_cr_1);
    vm_compute; reflexivity.
Defined.

(** C3, as the specification states it, fails: in [Sample.orphaned] the
    administrator approves the pending request [cr_1] of a deleted service,
    and the request is not [approved] afterwards. *)
Lemma approve_without_service_not_approved :
  current_role Sample.orphaned = Some admin
  /\ (status <$> changeRequests Sample.orphaned !! "cr_1") = Some pending
  /\ services Sample.orphaned !! "check_balance" = None
  /\ (status <$>
        changeRequests
          (world (approveChangeRequest Sample.orphaned "cr_1"
                    "2025-11-03T10:00:00.000Z" "2025-11-03T10:00:00.001Z"))
          !! "cr_1") <> Some approved.
Proof. vm_compute. repeat split; discriminate. Qed.

(** C4, as the code has it.  A transition whose status precondition fails
    returns at its guard: no alert is opened, nothing is thrown, and the
    ledger and the catalog are left as they were. *)
Theorem failed_precondition_is_silent (w : World) (requestId : string) :
  (precondition_fails w requestId draft ->
     forall now, submitDraftChange w requestId now = unchanged w)
  /\ (precondition_fails w requestId pending ->
     (forall now, recallPendingChange w requestId now = unchanged w)
     /\ (forall n1 n2, approveChangeRequest w requestId n1 n2 = unchanged w)
     /\ (forall c now, rejectChangeRequest w requestId c now = unchanged w)).
Proof.
  unfold precondition_fails.
  split; [intros H now | intros H; repeat split; intros].
  - unfold submitDraftChange.
    destruct (changeRequests w !! requestId) as [r|] eqn:Hr; [|done].
    specialize (H r eq_refl). by rewrite bool_decide_eq_false_2.
  - unfold recallPendingChange.
    destruct (changeRequests w !! requestId) as [r|] eqn:Hr; [|done].
    specialize (H r eq_refl). by rewrite bool_decide_eq_false_2.
  - unfold approveChangeRequest.
    destruct (is_admin (current_role w)); [|done]. cbn.
    destruct (changeRequests w !! requestId) as [r|] eqn:Hr; [|done].
    specialize (H r eq_refl). by rewrite bool_decide_eq_false_2.
  - unfold rejectChangeRequest.
    destruct (is_admin (current_role w)); [|done]. cbn.
    destruct (changeRequests w !! requestId) as [r|] eqn:Hr; [|done].
    specialize (H r eq_refl). by rewrite bool_decide_eq_false_2.
Qed.

Lemma cr_1_not_draft :
  precondition_fails Sample.submitted "cr_1" draft.
Proof. intros r Hr. vm_compute in Hr. by injection Hr as <-. Defined.

Lemma nope_not_pending :
  precondition_fails Sample.submitted "nope" pending.
Proof. intros r Hr. vm_compute in Hr. discriminate. Defined.

Lemma failed_precondition_is_silent_witness :
  submitDraftChange Sample.submitted "cr_1" "2025-11-03T10:00:00.000Z"
    = unchanged Sample.submitted
  /\ approveChangeRequest Sample.submitted "nope"
       "2025-11-03T10:00:00.000Z" "2025-11-03T10:00:00.001Z"
     = unchanged Sample.submitted.
Proof.
  split.
  - apply (proj1 (failed_precondition_is_silent Sample.submitted "cr_1")).
    exact cr_1_not_draft.
  - apply (proj2 (failed_precondition_is_silent Sample.submitted "nope")).
    exact nope_not_pending.
Defined.

(** C4, as the specification states it, fails: [submit] on the request
    [cr_1], which is already [pending], reports nothing. *)
Lemma submit_on_pending_reports_nothing :
  (status <$> changeRequests Sample.submitted !! "cr_1") = Some pending
  /\ ~ reports_something
         (submitDraftChange Sample.submitted "cr_1" "2025-11-03T10:00:00.000Z").
Proof.
  split; [vm_compute; reflexivity|].
  unfold reports_something. vm_compute. intros H. by apply H.
Qed.

(** C8.  [cancelDraftChange] deletes the request stored under the id it is
    given: it looks neither at the request's status nor at the session, it
    touches nothing else and opens no alert. *)
Theorem cancel_deletes_whatever_status (w : World) (requestId : string) :
  let o := cancelDraftChange w requestId in
  changeRequests (world o) = delete requestId (changeRequests w)
  /\ changeRequests (world o) !! requestId = None
  /\ (forall k, k <> requestId ->
        changeRequests (world o) !! k = changeRequests w !! k)
  /\ services (world o) = services w
  /\ session (world o) = session w
  /\ alerts o = [].
Proof.
  cbn. repeat split.
  - apply lookup_delete_eq.
  - intros k Hk. by apply lookup_delete_ne.
Qed.

(** [cancel] on a [pending] request, by nobody in particular: the request
    leaves the ledger. *)
Example cancel_removes_pending :
  (status <$> changeRequests Sample.submitted !! "cr_1") = Some pending
  /\ changeRequests
       (run [Logout; Cancel "cr_1"] Sample.submitted) = ∅.
Proof. split; vm_compute; reflexivity. Qed.

(** ** The one-draft invariant *)

Lemma find_request_Some (p : ChangeRequest -> bool) (m : ChangeRequestMap)
    (r : ChangeRequest) :
  find_request p m = Some r -> p r = true /\ exists k, m !! k = Some r.
Proof.
  unfold find_request. intros H.
  apply List.find_some in H as [Hin Hp]. split; [done|].
  apply in_map_iff in Hin as [[k r'] [Heq Hin]]. cbn in Heq. subst r'.
  exists k. by apply elem_of_map_to_list, list_elem_of_In.
Qed.

Lemma find_request_None (p : ChangeRequest -> bool) (m : ChangeRequestMap) :
  find_request p m = None -> forall k r, m !! k = Some r -> p r = false.
Proof.
  unfold find_request. intros H k r Hr.
  eapply List.find_none in H; [exact H|].
  apply in_map_iff. exists (k, r). split; [done|].
  by apply list_elem_of_In, elem_of_map_to_list.
Qed.

Lemma ledger_inv_empty : ledger_inv ∅.
Proof.
  split.
  - intros k r Hr. by rewrite lookup_empty in Hr.
  - intros k1 k2 r1 r2 Hr. by rewrite lookup_empty in Hr.
Qed.

Lemma ledger_inv_delete (m : ChangeRequestMap) (k : string) :
  ledger_inv m -> ledger_inv (delete k m).
Proof.
  intros [Hk Hu]. split.
  - intros k' r Hr. apply lookup_delete_Some in Hr as [_ Hr]. eauto.
  - intros k1 k2 r1 r2 H1 H2.
    apply lookup_delete_Some in H1 as [_ H1].
    apply lookup_delete_Some in H2 as [_ H2]. eauto.
Qed.

(** Replacing a request by one for the same pair that is a draft only if
    the old one was. *)
Lemma ledger_inv_replace (m : ChangeRequestMap) (k : string)
    (r r' : ChangeRequest) :
  ledger_inv m -> m !! k = Some r ->
  id r' = id r -> serviceId r' = serviceId r -> field r' = field r ->
  (status r' = draft -> status r = draft) ->
  ledger_inv (<[k := r']> m).
Proof.
  intros [Hk Hu] Hr Hid Hs Hf Hst. split.
  - intros k' x Hx. destruct (decide (k = k')) as [->|Hne].
    + rewrite lookup_insert_eq in Hx. injection Hx as <-.
      rewrite Hid. eauto.
    + rewrite lookup_insert_ne in Hx by done. eauto.
  - intros k1 k2 r1 r2 H1 H2 S1 S2 E1 E2.
    destruct (decide (k1 = k)) as [->|N1]; destruct (decide (k2 = k)) as [->|N2];
      try done.
    + rewrite lookup_insert_eq in H1. injection H1 as <-.
      rewrite lookup_insert_ne in H2 by done.
      apply (Hu k k2 r r2); auto; congruence.
    + rewrite lookup_insert_eq in H2. injection H2 as <-.
      rewrite lookup_insert_ne in H1 by done.
      apply (Hu k1 k r1 r); auto; congruence.
    + rewrite lookup_insert_ne in H1 by done.
      rewrite lookup_insert_ne in H2 by done. eauto.
Qed.

(** Storing a request for a pair that has no draft. *)
Lemma ledger_inv_new_pair (m : ChangeRequestMap) (k : string)
    (r' : ChangeRequest) :
  ledger_inv m -> id r' = k ->
  (forall k' r, m !! k' = Some r -> status r = draft ->
     serviceId r = serviceId r' -> field r = field r' -> False) ->
  ledger_inv (<[k := r']> m).
Proof.
  intros [Hk Hu] Hid Hnone. split.
  - intros k' x Hx. destruct (decide (k = k')) as [->|Hne].
    + rewrite lookup_insert_eq in Hx. by injection Hx as <-.
    + rewrite lookup_insert_ne in Hx by done. eauto.
  - intros k1 k2 r1 r2 H1 H2 S1 S2 E1 E2.
    destruct (decide (k1 = k)) as [->|N1]; destruct (decide (k2 = k)) as [->|N2];
      try done.
    + rewrite lookup_insert_eq in H1. injection H1 as <-.
      rewrite lookup_insert_ne in H2 by done.
      exfalso. apply (Hnone k2 r2); auto.
    + rewrite lookup_insert_eq in H2. injection H2 as <-.
      rewrite lookup_insert_ne in H1 by done.
      exfalso. apply (Hnone k1 r1); auto.
    + rewrite lookup_insert_ne in H1 by done.
      rewrite lookup_insert_ne in H2 by done. eauto.
Qed.

Lemma is_telco_not_admin (r : option Role) (telco : TelcoKey) :
  is_telco r telco = true -> is_admin r = false.
Proof. by destruct r as [[|t]|]. Qed.

Lemma draft_test_true (sid fld : string) (r : ChangeRequest) :
  String.eqb (serviceId r) sid && String.eqb (field r) fld
    && bool_decide (status r = draft) = true
  <-> serviceId r = sid /\ field r = fld /\ status r = draft.
Proof.
  rewrite !andb_true_iff, !String.eqb_eq, bool_decide_eq_true. tauto.
Qed.

Lemma setTelcoField_inv (w : World) (sid : string) (telco : TelcoKey)
    (key : InfoKey) (value now fresh : string) :
  ledger_inv (changeRequests w) ->
  ledger_inv (changeRequests (world (setTelcoField w sid telco key value now fresh))).
Proof.
  intros Hinv. unfold setTelcoField.
  destruct (negb _); [done|].
  destruct (services w !! sid) as [service|]; [|done].
  destruct (is_admin _); [done|].
  destruct (is_telco _ _); [|done].
  destruct (find_request _ _) as [d|] eqn:Hfind; cbn.
  - apply find_request_Some in Hfind as [_ [k Hk]].
    pose proof (proj1 Hinv k d Hk) as Hid. rewrite Hid.
    by apply (ledger_inv_replace _ _ d).
  - apply ledger_inv_new_pair; [done|done|]. cbn.
    intros k' r Hr Hst Hs Hf.
    pose proof (find_request_None _ _ Hfind k' r Hr) as Hp.
    assert (Ht : String.eqb (serviceId r) sid
                 && String.eqb (field r) (field_path telco key)
                 && bool_decide (status r = draft) = true)
      by by apply draft_test_true.
    congruence.
Qed.

Lemma perform_inv (a : Action) (w : World) :
  is_recall a = false ->
  ledger_inv (changeRequests w) ->
  ledger_inv (changeRequests (world (perform a w))).
Proof.
  intros Hrec Hinv. destruct a; cbn; try done.
  - unfold removeService. by destruct (negb _).
  - by apply setTelcoField_inv.
  - unfold submitDraftChange.
    destruct (changeRequests w !! requestId) as [r|] eqn:Hr; [|done].
    destruct (negb _); [done|]. cbn.
    by apply (ledger_inv_replace _ _ r).
  - unfold approveChangeRequest.
    destruct (negb _); [done|].
    destruct (changeRequests w !! requestId) as [r|] eqn:Hr; [|done].
    destruct (negb _); [done|].
    destruct (services w !! serviceId r); [|done]. cbn.
    by apply (ledger_inv_replace _ _ r).
  - unfold rejectChangeRequest.
    destruct (negb _); [done|].
    destruct (changeRequests w !! requestId) as [r|] eqn:Hr; [|done].
    destruct (negb _); [done|]. cbn.
    by apply (ledger_inv_replace _ _ r).
  - by apply ledger_inv_delete.
Qed.

Lemma run_inv (acts : list Action) (w : World) :
  forallb (fun a => negb (is_recall a)) acts = true ->
  ledger_inv (changeRequests w) ->
  ledger_inv (changeRequests (run acts w)).
Proof.
  revert w. induction acts as [|a acts IH]; intros w Hacts Hinv; [done|].
  cbn in Hacts. apply andb_true_iff in Hacts as [Ha Hacts].
  cbn. apply IH; [done|].
  apply perform_inv; [|done]. by destruct (is_recall a).
Qed.

(** An edit of a field that has a draft rewrites that draft where it is. *)
Lemma edit_updates_draft_in_place (w : World) (sid : string)
    (telco : TelcoKey) (key : InfoKey) (value now fresh : string)
    (k : string) (d : ChangeRequest) :
  ledger_inv (changeRequests w) ->
  is_telco (current_role w) telco = true ->
  is_Some (services w !! sid) ->
  changeRequests w !! k = Some d ->
  status d = draft -> serviceId d = sid -> field d = field_path telco key ->
  changeRequests (world (setTelcoField w sid telco key value now fresh))
  = <[k := {| id := id d; serviceId := serviceId d; field := field d;
              oldValue := oldValue d; newValue := value;
              requestedBy := requestedBy d; requestedAt := now;
              status := status d; reviewedBy := reviewedBy d;
              reviewedAt := reviewedAt d; comments := comments d |}]>
      (changeRequests w).
Proof.
  intros Hinv Hrole [service Hsvc] Hk Hst Hs Hf.
  unfold setTelcoField.
  rewrite Hrole, (is_telco_not_admin _ _ Hrole), Hsvc. cbn.
  destruct (find_request _ _) as [d0|] eqn:Hfind; cbn.
  - apply find_request_Some in Hfind as [Hp [k0 Hk0]].
    apply draft_test_true in Hp as (Hs0 & Hf0 & Hst0).
    assert (k0 = k) as ->
      by (apply (proj2 Hinv k0 k d0 d); auto; congruence).
    assert (d0 = d) as -> by congruence.
    by rewrite (proj1 Hinv k d Hk).
  - pose proof (find_request_None _ _ Hfind k d Hk) as Hp.
    assert (Ht : String.eqb (serviceId d) sid
                 && String.eqb (field d) (field_path telco key)
                 && bool_decide (status d = draft) = true)
      by by apply draft_test_true.
    congruence.
Qed.

(** C2, as the code has it.  From a ledger that holds at most one draft
    for each (service, field) pair, every sequence of create-or-update-draft,
    submit, approve, reject and cancel (and of logins, logouts and service
    deletions) leads to a ledger that holds at most one draft for each pair;
    and an edit of a field that has a draft rewrites that draft under its
    key instead of adding a request.  [recall] is left out of the sequence,
    and nothing is said of pending requests. *)
Theorem drafts_unique_without_recall (w0 : World) (acts : list Action) :
  keyed_by_id (changeRequests w0) ->
  at_most_one draft (changeRequests w0) ->
  forallb (fun a => negb (is_recall a)) acts = true ->
  let w := run acts w0 in
  at_most_one draft (changeRequests w)
  /\ (forall sid telco key value now fresh k d,
        is_telco (current_role w) telco = true ->
        is_Some (services w !! sid) ->
        changeRequests w !! k = Some d ->
        status d = draft -> serviceId d = sid ->
        field d = field_path telco key ->
        changeRequests (world (setTelcoField w sid telco key value now fresh))
        = <[k := {| id := id d; serviceId := serviceId d; field := field d;
                    oldValue := oldValue d; newValue := value;
                    requestedBy := requestedBy d; requestedAt := now;
                    status := status d; reviewedBy := reviewedBy d;
                    reviewedAt := reviewedAt d; comments := comments d |}]>
            (changeRequests w)).
Proof.
  intros Hk Hu Hacts w.
  assert (Hinv : ledger_inv (changeRequests w))
    by (apply run_inv; [done | by split]).
  split; [apply Hinv|].
  intros. by apply edit_updates_draft_in_place.
Qed.

Lemma drafts_unique_without_recall_witness :
  let w := run [Login Sample.mtn_rep;
                Edit "check_balance" mtn Code "*125#" "2025-11-02T08:00:00.000Z" "cr_1"]
             Sample.start in
  at_most_one draft (changeRequests w)
  /\ changeRequests
       (world (setTelcoField w "check_balance" mtn Code "*127#"
                 "2025-11-02T08:05:00.000Z" "cr_9"))
     = {[ "cr_1" :=
            {| id := "cr_1"; serviceId := "check_balance";
               field := "telcos.mtn.code"; oldValue := "*124#";
               newValue := "*127#"; requestedBy := "Kofi";
               requestedAt := "2025-11-02T08:05:00.000Z"; status := draft;
               reviewedBy := None; reviewedAt := None; comments := None |} ]}.
Proof.
  intros w. subst w.
  destruct (drafts_unique_without_recall Sample.start
              [Login Sample.mtn_rep;
               Edit "check_balance" mtn Code "*125#" "2025-11-02T08:00:00.000Z" "cr_1"]
              (proj1 ledger_inv_empty) (proj2 ledger_inv_empty) eq_refl)
    as [Hu Hedit].
  split; [exact Hu|].
  rewrite (Hedit "check_balance" mtn Code "*127#" "2025-11-02T08:05:00.000Z"
             "cr_9" "cr_1"
             {| id := "cr_1"; serviceId := "check_balance";
                field := "telcos.mtn.code"; oldValue := "*124#";
                newValue := "*125#"; requestedBy := "Kofi";
                requestedAt := "2025-11-02T08:00:00.000Z"; status := draft;
                reviewedBy := None; reviewedAt := None; comments := None |});
    try (vm_compute; reflexivity).
  vm_compute. eexists. reflexivity.
Defined.

(** C2, as the specification states it, fails: the representative edits a
    field, submits the draft, edits the field again and submits again; the
    ledger then holds two [pending] requests for the pair. *)
Lemma two_pending_for_one_field :
  count_requests pending "check_balance" "telcos.mtn.code"
    (changeRequests Sample.submitted_twice) = 2%nat
  /\ ~ at_most_one pending (changeRequests Sample.submitted_twice).
Proof.
  split; [vm_compute; reflexivity|].
  intros H.
  assert (H1 : exists r, changeRequests Sample.submitted_twice !! "cr_1" = Some r
                 /\ status r = pending /\ serviceId r = "check_balance"
                 /\ field r = "telcos.mtn.code")
    by (vm_compute; eexists; repeat split).
  assert (H2 : exists r, changeRequests Sample.submitted_twice !! "cr_2" = Some r
                 /\ status r = pending /\ serviceId r = "check_balance"
                 /\ field r = "telcos.mtn.code")
    by (vm_compute; eexists; repeat split).
  destruct H1 as (r1 & L1 & S1 & I1 & F1), H2 as (r2 & L2 & S2 & I2 & F2).
  specialize (H "cr_1" "cr_2" r1 r2 L1 L2 S1 S2).
  rewrite I1, I2, F1, F2 in H. specialize (H eq_refl eq_refl). discriminate H.
Qed.

(** With [recall] in the sequence the drafts are not unique either: a
    request recalled while the field has a newer draft becomes a second
    draft for the pair. *)
Lemma recall_makes_second_draft :
  count_requests draft "check_balance" "telcos.mtn.code"
    (changeRequests Sample.recalled_beside_draft) = 2%nat
  /\ ~ at_most_one draft (changeRequests Sample.recalled_beside_draft).
Proof.
  split; [vm_compute; reflexivity|].
  intros H.
  assert (H1 : exists r, changeRequests Sample.recalled_beside_draft !! "cr_1" = Some r
                 /\ status r = draft /\ serviceId r = "check_balance"
                 /\ field r = "telcos.mtn.code")
    by (vm_compute; eexists; repeat split).
  assert (H2 : exists r, changeRequests Sample.recalled_beside_draft !! "cr_2" = Some r
                 /\ status r = draft /\ serviceId r = "check_balance"
                 /\ field r = "telcos.mtn.code")
    by (vm_compute; eexists; repeat split).
  destruct H1 as (r1 & L1 & S1 & I1 & F1), H2 as (r2 & L2 & S2 & I2 & F2).
  specialize (H "cr_1" "cr_2" r1 r2 L1 L2 S1 S2).
  rewrite I1, I2, F1, F2 in H. specialize (H eq_refl eq_refl). discriminate H.
Qed.

End Ledger.

(* ================================================================== *)
(** * Export and import *)
(* ================================================================== *)

Section Transforms.
Import Utils.

(** A left-to-right loop that stores [f k v] under [k] for every entry of a
    list with distinct keys. *)
Lemma foldl_store_lookup {A B : Type} (f : string -> A -> option B)
    (step : gmap string B -> string * A -> gmap string B)
    (l : list (string * A)) (acc : gmap string B) (k : string) :
  (forall r i v, step r (i, v) = match f i v with
                                 | Some x => <[i := x]> r
                                 | None => r
                                 end) ->
  NoDup l.*1 ->
  foldl step acc l !! k
  = from_option Some (acc !! k) ((list_to_map l : gmap string A) !! k ≫= f k).
Proof.
  intros Hstep. revert acc.
  induction l as [|[i v] l IH]; intros acc Hnd; [done|].
  apply NoDup_cons in Hnd as [Hi Hnd]. cbn [foldl].
  rewrite IH by done. rewrite Hstep. cbn [list_to_map foldr uncurry].
  destruct (decide (i = k)) as [->|Hne].
  - rewrite lookup_insert_eq.
    rewrite (not_elem_of_list_to_map_1 l k) by done. cbn.
    destruct (f k v); [by rewrite lookup_insert_eq | done].
  - rewrite (lookup_insert_ne _ i k) by done.
    destruct (f i v); [by rewrite lookup_insert_ne | done].
Qed.

Lemma normalizeImported_object (clock : string -> string) (E : gmap string json) :
  normalizeImported clock (JObj E) = Return (map_imap (import_candidate clock) E).
Proof.
  unfold normalizeImported. cbn. f_equal.
  apply map_eq. intros k.
  rewrite (foldl_store_lookup (import_candidate clock)).
  - rewrite list_to_map_to_list, lookup_empty, map_lookup_imap.
    by destruct (E !! k ≫= import_candidate clock k).
  - intros r i v. unfold import_candidate. by destruct (_ || _).
  - apply NoDup_fst_map_to_list.
Qed.








Lemma catalog_keyed (k : string) (s : ServiceEntry) :
  Sample.catalog !! k = Some s -> service_id s = k.
Proof.
  unfold Sample.catalog. intros H.
  by apply lookup_singleton_Some in H as [<- <-].
Defined.


(** The import of the sample export, computed: the guidance note is gone
    and the entry carries the clock reading of the import. *)
Example import_of_export_computed :
  (fun r => match r with
            | Return imported =>
                (fun s => (description s, active s, lastUpdated s))
                  <$> imported !! "check_balance"
            | Throw _ => None
            end)
    (normalizeImported (fun _ => "2025-11-03T10:00:00.000Z")
       (toOriginalSchema Sample.catalog))
  = Some (None, true, "2025-11-03T10:00:00.000Z").
Proof. vm_compute. reflexivity. Qed.

(** ** Subset import *)

Lemma same_outside_refl (telco : TelcoKey) (s : ServiceEntry) :
  same_outside telco s s.
Proof. by repeat split. Qed.

Lemma same_outside_trans (telco : TelcoKey) (s1 s2 s3 : ServiceEntry) :
  same_outside telco s1 s2 -> same_outside telco s2 s3 ->
  same_outside telco s1 s3.
Proof.
  intros (A1 & A2 & A3 & A4 & A5) (B1 & B2 & B3 & B4 & B5).
  repeat split; try congruence.
  intros t Ht. rewrite B5, A5; done.
Qed.

Lemma framed_refl (telco : TelcoKey) (m : ServiceMap) : framed telco m m.
Proof.
  split; [done|]. intros k s Hs. exists s. split; [done|].
  apply same_outside_refl.
Qed.

Lemma framed_trans (telco : TelcoKey) (m1 m2 m3 : ServiceMap) :
  framed telco m1 m2 -> framed telco m2 m3 -> framed telco m1 m3.
Proof.
  intros [N1 S1] [N2 S2]. split; [by auto|].
  intros k s Hs.
  destruct (S1 k s Hs) as (s2 & Hs2 & H12).
  destruct (S2 k s2 Hs2) as (s3 & Hs3 & H23).
  exists s3. split; [done|]. by apply (same_outside_trans _ _ s2).
Qed.

Lemma patched_same_outside (telco : TelcoKey) (i : TelcoInfo) (now : string)
    (s : ServiceEntry) :
  same_outside telco s
    (set_lastUpdated now (set_telcos (telco_set telco i (telcos s)) s)).
Proof.
  repeat split. intros t Ht. cbn. by apply telco_get_set_ne.
Qed.

Lemma read_own {A : Type} (m : gmap string A) (k : string) (a : A) :
  m !! k = Some a -> read m k = Own a.
Proof. intros H. unfold read. by rewrite H. Qed.

Lemma read_builtin {A : Type} (m : gmap string A) (k : string) :
  m !! k = None -> inherited k = true -> read m k = Builtin.
Proof. intros H Hi. unfold read. by rewrite H, Hi. Qed.




Lemma set_member_insert {A : Type} (k : string) (v : A) (m : gmap string A) :
  k <> "__proto__" \/ is_Some (m !! k) -> set_member k v m = <[k := v]> m.
Proof.
  unfold set_member. intros [Hne|[a ->]]; [|done].
  destruct (m !! k); [done|]. apply String.eqb_neq in Hne. by rewrite Hne.
Qed.


(** One iteration: when it returns, it touches no other key and keeps the
    frame. *)
Lemma apply_patch_frame (clock : string -> string) (telco : TelcoKey)
    (next next' : ServiceMap) (k : string) (patch : json) :
  apply_patch clock telco next k patch = Return next' ->
  framed telco next next' /\ (forall j, j <> k -> next' !! j = next !! j).
Proof.
  unfold apply_patch, read.
  destruct (next !! k) as [s|] eqn:Hs.
  - intros H.
    assert (Hn : exists i, next' = <[k := set_lastUpdated (clock k)
                                     (set_telcos (telco_set telco i (telcos s)) s)]> next)
      by (destruct patch; try done; injection H as <-; eexists; reflexivity).
    clear H. destruct Hn as [i ->]. split.
    + split.
      * intros j Hj. rewrite lookup_insert_ne; [done|]. intros ->. congruence.
      * intros j x Hx. destruct (decide (k = j)) as [->|Hne].
        -- rewrite lookup_insert_eq. eexists. split; [done|].
           assert (x = s) as -> by congruence. apply patched_same_outside.
        -- rewrite lookup_insert_ne by done. exists x. split; [done|].
           apply same_outside_refl.
    + intros j Hj. by rewrite lookup_insert_ne.
  - destruct (inherited k); [done|].
    intros [= <-]. split; [apply framed_refl | done].
Qed.

Lemma apply_patches_frame (clock : string -> string) (telco : TelcoKey)
    (es : list (string * json)) (m next : ServiceMap) :
  apply_patches clock telco es m = Return next ->
  framed telco m next /\ (forall k, k ∉ es.*1 -> next !! k = m !! k).
Proof.
  revert m. induction es as [|[k patch] es IH]; intros m H; cbn in H.
  - injection H as <-. split; [apply framed_refl | done].
  - destruct (apply_patch clock telco m k patch) as [m'|e] eqn:Hp; [|done].
    apply apply_patch_frame in Hp as [Hf Ho].
    apply IH in H as [Hf' Ho']. split.
    + by apply (framed_trans _ _ m').
    + intros j Hj. cbn in Hj. apply not_elem_of_cons in Hj as [Hjk Hj].
      rewrite Ho' by done. by apply Ho.
Qed.


(** Whatever the loop throws is a TypeError. *)
Lemma apply_patch_throws (clock : string -> string) (telco : TelcoKey)
    (next : ServiceMap) (k : string) (patch : json) (e : exn) :
  apply_patch clock telco next k patch = Throw e -> e = TypeError.
Proof.
  unfold apply_patch. destruct (read next k) as [s| |]; [|by intros [= <-]|done].
  destruct patch; try done. by intros [= <-].
Qed.


(** A patch filed under the name of a member of [Object.prototype] that the
    catalog lacks makes the loop throw, wherever it stands in the file. *)
Lemma apply_patches_prototype_name (clock : string -> string) (telco : TelcoKey)
    (es : list (string * json)) (m : ServiceMap) (k : string) (p : json) :
  (k, p) ∈ es -> m !! k = None -> inherited k = true ->
  apply_patches clock telco es m = Throw TypeError.
Proof.
  revert m. induction es as [|[k0 p0] es IH]; intros m Hin Hk Hi.
  - by apply elem_of_nil in Hin.
  - cbn [apply_patches].
    destruct (apply_patch clock telco m k0 p0) as [m'|e] eqn:Hp.
    + apply elem_of_cons in Hin as [[= <- <-]|Hin].
      * unfold apply_patch in Hp. by rewrite (read_builtin m k Hk Hi) in Hp.
      * apply apply_patch_frame in Hp as [[Hnone _] _].
        apply IH; [done | by apply Hnone | done].
    + by rewrite (apply_patch_throws _ _ _ _ _ _ Hp).
Qed.

(** C6.  A subset file that names a service under the name of a member of
    [Object.prototype], such as [constructor], while the catalog has no
    service of that name, is not passed over: [applyTelcoSubset] throws a
    TypeError, and the import of the representative fails with the engine's
    message, the catalog being left as it was. *)
Theorem subset_import_throws_on_prototype_name (clock : string -> string)
    (w : App.World) (telco : TelcoKey) (props : gmap string json)
    (k : string) (patch : json) (engine : string) :
  props !! k = Some patch ->
  App.services w !! k = None ->
  inherited k = true ->
  applyTelcoSubset clock (App.services w) telco (JObj props) = Throw TypeError
  /\ (App.current_role w = Some (telco_role telco) ->
      Admin.handleImport w (Admin.Parses (JObj props)) clock engine
      = {| App.world := w; App.alerts := ["Import failed: " +:+ engine] |}).
Proof.
  intros Hp Hk Hi.
  assert (Hthrow : applyTelcoSubset clock (App.services w) telco (JObj props)
                   = Throw TypeError).
  { unfold applyTelcoSubset. cbn [entries].
    apply (apply_patches_prototype_name _ _ _ _ k patch); [|done..].
    by apply elem_of_map_to_list. }
  split; [exact Hthrow|].
  intros Hrole. unfold Admin.handleImport. by rewrite Hrole, Hthrow.
Qed.

Lemma subset_import_throws_on_prototype_name_witness :
  applyTelcoSubset (fun _ => "2025-11-03T10:00:00.000Z") Sample.catalog mtn
    (JObj {[ "constructor" := JObj {[ "code" := JStr "*555#" ]} ]})
  = Throw TypeError.
Proof.
  apply (subset_import_throws_on_prototype_name
           (fun _ => "2025-11-03T10:00:00.000Z") Sample.start mtn
           {[ "constructor" := JObj {[ "code" := JStr "*555#" ]} ]}
           "constructor" (JObj {[ "code" := JStr "*555#" ]}) "engine text");
    vm_compute; reflexivity.
Defined.





(** The import of [Sample.mtn_subset], computed: the code changes, the
    explanation stays, and the [null] patch for the unknown id is passed
    over. *)
Example subset_import_computed :
  (fun r => match r with
            | Return next =>
                (dom next, (fun s => t_mtn (telcos s)) <$> next !! "check_balance")
            | Throw _ => (∅, None)
            end)
    (applyTelcoSubset (fun _ => "2025-11-03T10:00:00.000Z") Sample.catalog mtn
       Sample.mtn_subset)
  = (dom Sample.catalog,
     Some {| code := "*555#";
             explanation := "Checks your main airtime balance on MTN." |}).
Proof. vm_compute. reflexivity. Qed.

End Transforms.

(* ================================================================== *)
(** * The read-only API *)
(* ================================================================== *)

Section ReadOnlyApi.
Import Api.

(** ** Normalisation of the path arguments *)

Lemma lower_char_idem (c : ascii) : lower_char (lower_char c) = lower_char c.
Proof. destruct c as [[] [] [] [] [] [] [] []]; reflexivity. Qed.

Lemma is_space_lower_char (c : ascii) : is_space (lower_char c) = is_space c.
Proof. destruct c as [[] [] [] [] [] [] [] []]; reflexivity. Qed.

Lemma toLowerCase_idem (s : string) : toLowerCase (toLowerCase s) = toLowerCase s.
Proof. induction s as [|c s IH]; cbn; [done|]. by rewrite lower_char_idem, IH. Qed.

Lemma toLowerCase_empty (s : string) :
  String.eqb (toLowerCase s) "" = String.eqb s "".
Proof. by destruct s. Qed.

Lemma trimStart_toLowerCase (s : string) :
  trimStart (toLowerCase s) = toLowerCase (trimStart s).
Proof.
  induction s as [|c s IH]; cbn; [done|].
  rewrite is_space_lower_char. by destruct (is_space c).
Qed.

Lemma trimEnd_toLowerCase (s : string) :
  trimEnd (toLowerCase s) = toLowerCase (trimEnd s).
Proof.
  induction s as [|c s IH]; cbn; [done|].
  rewrite is_space_lower_char, IH, toLowerCase_empty.
  by destruct (is_space c && String.eqb (trimEnd s) "").
Qed.

Lemma trim_toLowerCase (s : string) : trim (toLowerCase s) = toLowerCase (trim s).
Proof. unfold trim. by rewrite trimStart_toLowerCase, trimEnd_toLowerCase. Qed.

Lemma trimEnd_idem (s : string) : trimEnd (trimEnd s) = trimEnd s.
Proof.
  induction s as [|c s IH]; cbn; [done|].
  destruct (is_space c && String.eqb (trimEnd s) "") eqn:H; [done|].
  cbn. by rewrite IH, H.
Qed.

Lemma trimStart_trimEnd_trimStart (s : string) :
  trimStart (trimEnd (trimStart s)) = trimEnd (trimStart s).
Proof.
  induction s as [|c s IH]; cbn; [done|].
  destruct (is_space c) eqn:Hc; [done|].
  cbn. rewrite Hc. cbn. by rewrite Hc.
Qed.

Lemma trim_idem (s : string) : trim (trim s) = trim s.
Proof. unfold trim. by rewrite trimStart_trimEnd_trimStart, trimEnd_idem. Qed.

(** Normalising twice is normalising once. *)
Lemma normalize_idem (s : string) :
  toLowerCase (trim (toLowerCase (trim s))) = toLowerCase (trim s).
Proof. by rewrite trim_toLowerCase, toLowerCase_idem, trim_idem. Qed.

(** The four identifiers that [includes] accepts are the keys of a
    [Record<TelcoKey, _>]. *)
Lemma valid_network_telco (nKey : string) :
  valid_network nKey = true <-> exists t, telco_of_string nKey = Some t.
Proof.
  unfold valid_network, telco_of_string. rewrite bool_decide_eq_true.
  rewrite !elem_of_cons, elem_of_nil.
  destruct (String.eqb_spec nKey "mtn"); [split; [by eauto | by auto 6]|].
  destruct (String.eqb_spec nKey "telecel"); [split; [by eauto | by auto 6]|].
  destruct (String.eqb_spec nKey "airteltigo"); [split; [by eauto | by auto 6]|].
  destruct (String.eqb_spec nKey "glo"); [split; [by eauto | by auto 6]|].
  split; [tauto | by intros [t Ht]].
Qed.

Lemma telco_of_string_name (nKey : string) (t : TelcoKey) :
  telco_of_string nKey = Some t -> telco_name t = nKey.
Proof.
  unfold telco_of_string.
  destruct (String.eqb_spec nKey "mtn"); [by intros [= <-]|].
  destruct (String.eqb_spec nKey "telecel"); [by intros [= <-]|].
  destruct (String.eqb_spec nKey "airteltigo"); [by intros [= <-]|].
  destruct (String.eqb_spec nKey "glo"); [by intros [= <-]|]. done.
Qed.

Lemma known_truthy (o : option json) :
  truthy_opt o = match known o with Some _ => true | None => false end.
Proof. destruct o as [v|]; cbn; [by destruct (truthy v) | done]. Qed.

Lemma known_Some (o : option json) (v : json) : known o = Some v -> o = Some v.
Proof. destruct o as [x|]; cbn; [|done]. by destruct (truthy x); intros [= <-]. Qed.

Lemma get_object_of_code (c e : option json) :
  get (object_of [("code", c); ("explanation", e)]) "code" = c.
Proof. destruct c, e; reflexivity. Qed.

Lemma get_object_of_explanation (c e : option json) :
  get (object_of [("code", c); ("explanation", e)]) "explanation" = e.
Proof. destruct c, e; reflexivity. Qed.

(** Unless the read of the service finds a member of [Object.prototype],
    [lookup] answers as the contract says. *)
Lemma handleLookup_contract (keys : list string) (data : gmap string json)
    (service network : string) :
  read data (normalizeService service) <> Builtin ->
  read_lookup (handleLookup keys data service network)
  = Some (lookup_contract data service network).
Proof.
  unfold handleLookup, lookup_contract, normalizeService, normalizeNetwork, read.
  intros Hread.
  destruct (data !! toLowerCase (trim service)) as [blob|] eqn:Hblob; cbn [known].
  2:{ destruct (inherited (toLowerCase (trim service))); done. }
  cbn [truthy_member member_get].
  destruct (truthy blob) eqn:Hblobt; [|done]. cbn [negb].
  destruct (telco_of_string (toLowerCase (trim network))) as [t|] eqn:Ht.
  - assert (Hv : valid_network (toLowerCase (trim network)) = true)
      by (apply valid_network_telco; eauto).
    rewrite Hv. cbn [negb].
    rewrite (telco_of_string_name _ _ Ht), known_truthy.
    destruct (known (get blob (toLowerCase (trim network)))) as [entry|] eqn:He;
      [|done].
    apply known_Some in He. rewrite He. unfold read_lookup.
    cbn [Api.status body negb truthy_opt].
    rewrite get_object_of_code, get_object_of_explanation. reflexivity.
  - assert (Hv : valid_network (toLowerCase (trim network)) = false).
    { apply not_true_is_false. intros H.
      apply valid_network_telco in H as [t Ht']. congruence. }
    by rewrite Hv.
Qed.

(** A service that [data] holds, or a name that [Object.prototype] does
    not define, is read as the map has it. *)
Lemma read_not_builtin {A : Type} (m : gmap string A) (k : string) :
  is_Some (m !! k) \/ inherited k = false -> read m k <> Builtin.
Proof.
  unfold read. intros [[a ->]|Hi]; [done|].
  destruct (m !! k); [done|]. by rewrite Hi.
Qed.

(** What [lookup] answers when the read of the service finds a member of
    [Object.prototype]: the network decides. *)
Lemma handleLookup_builtin (keys : list string) (data : gmap string json)
    (service network : string) :
  read data (normalizeService service) = Builtin ->
  handleLookup keys data service network
  = if valid_network (normalizeNetwork network) then
      {| Api.status := 404;
         body := error_body ("No entry for network '" +:+ network
                             +:+ "' under service '" +:+ service +:+ "'.") |}
    else
      {| Api.status := 400;
         body := error_body ("Unknown network '" +:+ network
                             +:+ "'. Valid networks: mtn, telecel, airteltigo, glo") |}.
Proof.
  intros Hread. unfold handleLookup. rewrite Hread. cbn.
  by destruct (valid_network (normalizeNetwork network)).
Qed.

(** C7.  The contract fails for a service that [data] lacks and whose
    normalised name is that of a member of [Object.prototype], such as
    [constructor]: the contract says "not found", while [lookup], given a
    network outside the four identifiers, answers 400 as for a known
    service. *)
Theorem lookup_of_prototype_name (keys : list string) (data : gmap string json)
    (service network : string) :
  data !! normalizeService service = None ->
  inherited (normalizeService service) = true ->
  valid_network (normalizeNetwork network) = false ->
  lookup_contract data service network = NotFound
  /\ read_lookup (handleLookup keys data service network) = Some InvalidArgument.
Proof.
  intros Hnone Hi Hv. split.
  - unfold lookup_contract. fold (normalizeService service). by rewrite Hnone.
  - rewrite handleLookup_builtin by by apply read_builtin. by rewrite Hv.
Qed.

Lemma lookup_of_prototype_name_witness :
  lookup_contract USSD_DATA " Constructor" "vodafone" = NotFound
  /\ read_lookup (handleLookup USSD_DATA_keys USSD_DATA " Constructor" "vodafone")
     = Some InvalidArgument.
Proof.
  apply lookup_of_prototype_name; vm_compute; reflexivity.
Defined.

(** C9.  For the service [constructor], which [USSD_DATA] does not hold,
    and the network [xx], which is outside the fixed set, [lookup] answers
    with the 400 of the bad network, not with the 404 of the unknown
    service. *)
Theorem bad_network_wins_for_prototype_name :
  USSD_DATA !! normalizeService "constructor" = None
  /\ valid_network (normalizeNetwork "xx") = false
  /\ handleLookup USSD_DATA_keys USSD_DATA "constructor" "xx"
     = {| Api.status := 400;
          body := error_body
                    "Unknown network 'xx'. Valid networks: mtn, telecel, airteltigo, glo" |}.
Proof. split; [|split]; vm_compute; reflexivity. Qed.

(** X29.  For a service that [data] holds, or whose normalised name
    [Object.prototype] does not define, [lookup] answers as its contract
    says, on the trimmed and lowercased arguments: the entry's code and
    explanation with status 200, 404 for an unknown service, 400 for a
    network outside the four identifiers, 404 for a known service without an
    entry for the network.  The answer to normalised arguments is the answer
    to the arguments as given; and an unknown service gets its 404, with the
    keys of [data] in the message, whatever the network. *)
Theorem lookup_follows_contract (keys : list string) (data : gmap string json)
    (service network : string) :
  is_Some (data !! normalizeService service)
  \/ inherited (normalizeService service) = false ->
  read_lookup (handleLookup keys data service network)
  = Some (lookup_contract data service network)
  /\ read_lookup (handleLookup keys data (normalizeService service)
                    (normalizeNetwork network))
     = read_lookup (handleLookup keys data service network)
  /\ (truthy_opt (data !! normalizeService service) = false ->
      handleLookup keys data service network
      = {| Api.status := 404;
           body := error_body ("Unknown service '" +:+ service
                               +:+ "'. Valid services: " +:+ keys_joined keys) |}).
Proof.
  intros Hown.
  assert (Hread : read data (normalizeService service) <> Builtin)
    by by apply read_not_builtin.
  split; [by apply handleLookup_contract|]. split.
  - rewrite !handleLookup_contract; [|done|].
    + f_equal. unfold lookup_contract, normalizeService, normalizeNetwork.
      by rewrite !normalize_idem.
    + unfold normalizeService in *. by rewrite normalize_idem.
  - intros Hfalsy. unfold handleLookup.
    assert (truthy_member (read data (normalizeService service)) = false) as ->;
      [|done].
    revert Hread Hfalsy. unfold read.
    destruct (data !! normalizeService service) as [blob|]; [done|].
    by destruct (inherited (normalizeService service)).
Qed.

Lemma lookup_follows_contract_witness :
  handleLookup USSD_DATA_keys USSD_DATA "nope" "xx"
  = {| Api.status := 404;
       body := error_body
                 "Unknown service 'nope'. Valid services: check_balance, borrow_credit" |}.
Proof.
  destruct (lookup_follows_contract USSD_DATA_keys USSD_DATA "nope" "xx")
    as (_ & _ & H); [by right|].
  rewrite H by reflexivity. reflexivity.
Defined.

(** The scenarios of the specification, on [USSD_DATA]. *)
Example lookup_scenarios :
  read_lookup (handleLookup USSD_DATA_keys USSD_DATA "check_balance" "glo")
  = Some (Found (Some (JStr "*124#"))
            (Some (JStr "Checks your main airtime balance on Glo.")))
  /\ read_lookup (handleLookup USSD_DATA_keys USSD_DATA "  Check_Balance " " GLO ")
     = read_lookup (handleLookup USSD_DATA_keys USSD_DATA "check_balance" "glo")
  /\ Api.status (handleLookup USSD_DATA_keys USSD_DATA "check_balance" "xx") = 400%nat
  /\ Api.status (handleLookup USSD_DATA_keys USSD_DATA "nope" "mtn") = 404%nat
  /\ Api.status (handleLookup ["new_service_1"] Sample.sparse_data "new_service_1" "glo")
     = 404%nat.
Proof. vm_compute. done. Qed.

Lemma compare_member (code_of : string -> json) (t : TelcoKey) :
  get (compared code_of) (telco_name t) = Some (code_of (telco_name t)).
Proof. destruct t; reflexivity. Qed.

(** C10.  For a known service, [compare] gives [null] for a network whose
    code is the empty string, as it does for a network without a record:
    the two cannot be told apart in the answer. *)
Theorem compare_null_for_empty_code (keys : list string)
    (data : gmap string json) (service : string) (blob : json) (t : TelcoKey) :
  data !! normalizeService service = Some blob ->
  truthy blob = true ->
  get blob (telco_name t) = None
  \/ (exists record, get blob (telco_name t) = Some record
                     /\ get record "code" = Some (JStr "")) ->
  Api.status (handleCompare keys data service) = 200%nat
  /\ get (body (handleCompare keys data service)) (telco_name t) = Some JNull.
Proof.
  intros Hblob Htruthy Hcode. unfold handleCompare.
  rewrite (read_own _ _ _ Hblob), Htruthy. split; [done|].
  cbn [body]. rewrite compare_member. f_equal.
  unfold code_or_null. destruct Hcode as [-> | (record & -> & Hc)]; [done|].
  destruct record; try done. cbn in Hc |- *. by rewrite Hc.
Qed.

Lemma compare_null_for_empty_code_witness :
  (Api.status (handleCompare ["new_service_1"] Sample.sparse_data "New_Service_1")
   = 200%nat
   /\ get (body (handleCompare ["new_service_1"] Sample.sparse_data "New_Service_1"))
        "mtn"
      = Some JNull)
  /\ (Api.status (handleCompare ["new_service_1"] Sample.sparse_data "New_Service_1")
      = 200%nat
      /\ get (body (handleCompare ["new_service_1"] Sample.sparse_data "New_Service_1"))
           "glo"
         = Some JNull).
Proof.
  split.
  - apply (compare_null_for_empty_code ["new_service_1"] Sample.sparse_data
             "New_Service_1"
             (JObj (<["service_name" := JStr "New Service"]>
                   (<["mtn" := network_blob "" ""]> ∅))) mtn).
    + vm_compute; reflexivity.
    + reflexivity.
    + right. exists (network_blob "" ""). split; vm_compute; reflexivity.
  - apply (compare_null_for_empty_code ["new_service_1"] Sample.sparse_data
             "New_Service_1"
             (JObj (<["service_name" := JStr "New Service"]>
                   (<["mtn" := network_blob "" ""]> ∅))) glo).
    + vm_compute; reflexivity.
    + reflexivity.
    + left. vm_compute; reflexivity.
Defined.

End ReadOnlyApi.

(* ================================================================== *)
(** * More of the ledger: review, recall, roles *)
(* ================================================================== *)

Section LedgerHandlers.
Import App.
Import Admin.

(** X1.  [rejectChangeRequest] never changes the catalog or the session and
    touches no request but the one it is given; on a pending request the
    administrator's rejection stores it as [rejected] with the reviewer,
    the clock reading and the comment, everything else as it was. *)
Theorem reject_keeps_catalog (w : World) (requestId : string)
    (c : option string) (now : string) :
  let w' := world (rejectChangeRequest w requestId c now) in
  services w' = services w
  /\ session w' = session w
  /\ (forall k, k <> requestId -> changeRequests w' !! k = changeRequests w !! k)
  /\ (current_role w = Some admin ->
      forall r, changeRequests w !! requestId = Some r -> status r = pending ->
        changeRequests w' !! requestId
        = Some {| id := id r; serviceId := serviceId r; field := field r;
                  oldValue := oldValue r; newValue := newValue r;
                  requestedBy := requestedBy r; requestedAt := requestedAt r;
                  status := rejected;
                  reviewedBy := Some (display_or w "Admin");
                  reviewedAt := Some now; comments := c |}).
Proof.
  cbn zeta. unfold rejectChangeRequest.
  destruct (is_admin (current_role w)) eqn:Hadm; cbn [negb].
  - destruct (changeRequests w !! requestId) as [r|] eqn:Hr.
    + destruct (bool_decide (status r = pending)) eqn:Hst; cbn [negb].
      * cbn. repeat split.
        -- intros k Hk. by rewrite lookup_insert_ne.
        -- intros _ r' [= <-] _. by rewrite lookup_insert_eq.
      * cbn. repeat split. intros _ r' [= <-] Hp.
        apply bool_decide_eq_false in Hst. done.
    + cbn. repeat split. done.
  - cbn. repeat split. intros Hrole. rewrite Hrole in Hadm. done.
Qed.

Lemma reject_keeps_catalog_witness :
  (status <$>
     changeRequests
       (world (rejectChangeRequest Sample.submitted "cr_1" (Some "wrong code")
                 "2025-11-03T10:00:00.000Z")) !! "cr_1") = Some rejected.
Proof.
  destruct (reject_keeps_catalog Sample.submitted "cr_1" (Some "wrong code")
              "2025-11-03T10:00:00.000Z") as (_ & _ & _ & H).
  rewrite (H eq_refl Sample.request_cr_1); [reflexivity | | reflexivity].
  vm_compute; reflexivity.
Defined.

Lemma recall_pending (w : World) (requestId now : string) (r : ChangeRequest) :
  changeRequests w !! requestId = Some r -> status r = pending ->
  recallPendingChange w requestId now
  = {| world := store_requests
                  (<[requestId := restamp r draft now]> (changeRequests w)) w;
       alerts := ["Change recalled! You can now edit and resubmit."] |}.
Proof.
  intros Hr Hst. unfold recallPendingChange.
  by rewrite Hr, bool_decide_eq_true_2.
Qed.

Lemma submit_draft (w : World) (requestId now : string) (r : ChangeRequest) :
  changeRequests w !! requestId = Some r -> status r = draft ->
  submitDraftChange w requestId now
  = {| world := store_requests
                  (<[requestId := restamp r pending now]> (changeRequests w)) w;
       alerts := ["Change request submitted for admin review!"] |}.
Proof.
  intros Hr Hst. unfold submitDraftChange.
  by rewrite Hr, bool_decide_eq_true_2.
Qed.

(** X2.  Recalling a pending request and submitting it again gives the
    request back as it was, [pending] with the same values, but for
    [requestedAt], which is the clock reading of the second submission;
    nothing else in the ledger and nothing in the catalog changes. *)
Theorem recall_then_submit (w : World) (requestId t1 t2 : string)
    (r : ChangeRequest) :
  changeRequests w !! requestId = Some r ->
  status r = pending ->
  let w1 := world (recallPendingChange w requestId t1) in
  let w2 := world (submitDraftChange w1 requestId t2) in
  (status <$> changeRequests w1 !! requestId) = Some draft
  /\ changeRequests w2
     = <[requestId :=
           {| id := id r; serviceId := serviceId r; field := field r;
              oldValue := oldValue r; newValue := newValue r;
              requestedBy := requestedBy r; requestedAt := t2;
              status := pending; reviewedBy := reviewedBy r;
              reviewedAt := reviewedAt r; comments := comments r |}]>
         (changeRequests w)
  /\ services w2 = services w.
Proof.
  intros Hr Hst. cbn zeta.
  rewrite (recall_pending w requestId t1 r Hr Hst).
  cbn [world store_requests changeRequests].
  rewrite lookup_insert_eq. split; [done|].
  rewrite (submit_draft _ requestId t2 (restamp r draft t1));
    [|apply lookup_insert_eq | done].
  cbn [world store_requests changeRequests services restamp].
  split; [|done]. unfold restamp. cbn. by rewrite insert_insert_eq.
Qed.

Lemma recall_then_submit_witness :
  changeRequests
    (run [Recall "cr_1" "2025-11-03T10:00:00.000Z";
          Submit "cr_1" "2025-11-03T10:05:00.000Z"] Sample.submitted)
  = {[ "cr_1" :=
         {| id := "cr_1"; serviceId := "check_balance";
            field := "telcos.mtn.code"; oldValue := "*124#";
            newValue := "*125#"; requestedBy := "Kofi";
            requestedAt := "2025-11-03T10:05:00.000Z"; status := pending;
            reviewedBy := None; reviewedAt := None; comments := None |} ]}.
Proof.
  destruct (recall_then_submit Sample.submitted "cr_1"
              "2025-11-03T10:00:00.000Z" "2025-11-03T10:05:00.000Z"
              Sample.request_cr_1) as (_ & H & _);
    [vm_compute; reflexivity | reflexivity |].
  cbn [run foldl perform]. rewrite H. vm_compute. reflexivity.
Defined.

End LedgerHandlers.
Section LedgerRuns.
Import App.
Import Admin.

Lemma keyed_insert (m : ChangeRequestMap) (k : string) (r : ChangeRequest) :
  keyed_by_id m -> id r = k -> keyed_by_id (<[k := r]> m).
Proof.
  intros Hk Hid j x Hx. destruct (decide (k = j)) as [<-|Hne].
  - rewrite lookup_insert_eq in Hx. by injection Hx as <-.
  - rewrite lookup_insert_ne in Hx by done. eauto.
Qed.

Lemma wf_insert (m : ChangeRequestMap) (k : string) (r : ChangeRequest) :
  ledger_wf m -> id r = k -> request_wf r -> ledger_wf (<[k := r]> m).
Proof.
  intros [Hk Hw] Hid Hr. split; [by apply keyed_insert|].
  intros j x Hx. destruct (decide (k = j)) as [<-|Hne].
  - rewrite lookup_insert_eq in Hx. by injection Hx as <-.
  - rewrite lookup_insert_ne in Hx by done. eauto.
Qed.

Lemma wf_delete (m : ChangeRequestMap) (k : string) :
  ledger_wf m -> ledger_wf (delete k m).
Proof.
  intros [Hk Hw]. split.
  - intros j x Hx. apply lookup_delete_Some in Hx as [_ Hx]. eauto.
  - intros j x Hx. apply lookup_delete_Some in Hx as [_ Hx]. eauto.
Qed.

Lemma setTelcoField_wf (w : World) (sid : string) (telco : TelcoKey)
    (key : InfoKey) (value now fresh : string) :
  ledger_wf (changeRequests w) ->
  ledger_wf (changeRequests (world (setTelcoField w sid telco key value now fresh))).
Proof.
  intros Hwf. unfold setTelcoField.
  destruct (negb _); [done|].
  destruct (services w !! sid) as [service|]; [|done].
  destruct (is_admin _); [done|].
  destruct (is_telco _ _); [|done].
  destruct (find_request _ _) as [d|] eqn:Hfind; cbn.
  - apply find_request_Some in Hfind as [Hp [k Hk]].
    apply draft_test_true in Hp as (_ & _ & Hst).
    destruct Hwf as [Hkeyed Hw]. pose proof (Hw k d Hk) as [Hpath Hrev].
    apply wf_insert; [by split | done |].
    split; [done|]. cbn. by rewrite Hst in Hrev |- *.
  - apply wf_insert; [done | done |].
    split; cbn; [by eauto | done].
Qed.

Lemma perform_wf (a : Action) (w : World) :
  ledger_wf (changeRequests w) ->
  ledger_wf (changeRequests (world (perform a w))).
Proof.
  intros Hwf. destruct a; cbn; try done.
  - unfold removeService. by destruct (negb _).
  - by apply setTelcoField_wf.
  - unfold submitDraftChange.
    destruct (changeRequests w !! requestId) as [r|] eqn:Hr; [|done].
    destruct (bool_decide (status r = draft)) eqn:Hst; [|done]. cbn.
    apply bool_decide_eq_true in Hst.
    destruct (proj2 Hwf _ _ Hr) as [Hpath Hrev]. rewrite Hst in Hrev.
    apply wf_insert; [done | apply (proj1 Hwf _ _ Hr) |]. by split.
  - unfold recallPendingChange.
    destruct (changeRequests w !! requestId) as [r|] eqn:Hr; [|done].
    destruct (bool_decide (status r = pending)) eqn:Hst; [|done]. cbn.
    apply bool_decide_eq_true in Hst.
    destruct (proj2 Hwf _ _ Hr) as [Hpath Hrev]. rewrite Hst in Hrev.
    apply wf_insert; [done | apply (proj1 Hwf _ _ Hr) |]. by split.
  - unfold approveChangeRequest.
    destruct (negb _); [done|].
    destruct (changeRequests w !! requestId) as [r|] eqn:Hr; [|done].
    destruct (negb _); [done|].
    destruct (services w !! serviceId r); [|done]. cbn.
    destruct (proj2 Hwf _ _ Hr) as [Hpath _].
    apply wf_insert; [done | apply (proj1 Hwf _ _ Hr) |].
    split; [done|]. cbn. by split.
  - unfold rejectChangeRequest.
    destruct (negb _); [done|].
    destruct (changeRequests w !! requestId) as [r|] eqn:Hr; [|done].
    destruct (negb _); [done|]. cbn.
    destruct (proj2 Hwf _ _ Hr) as [Hpath _].
    apply wf_insert; [done | apply (proj1 Hwf _ _ Hr) |].
    split; [done|]. cbn. by split.
  - by apply wf_delete.
Qed.

Lemma run_wf (acts : list Action) (w : World) :
  ledger_wf (changeRequests w) -> ledger_wf (changeRequests (run acts w)).
Proof.
  revert w. induction acts as [|a acts IH]; intros w Hwf; [done|].
  cbn. apply IH. by apply perform_wf.
Qed.

Lemma ledger_wf_empty : ledger_wf ∅.
Proof. split; intros k r Hr; by rewrite lookup_empty in Hr. Qed.

(** X3.  Whatever the users do, the ledger stays well formed: from a
    ledger that is (the empty one is), every sequence of events leads to a
    ledger in which each request is stored under its id, has a field path
    that addresses a leaf of the per-network record, and carries a reviewer
    and a review time exactly when it is [approved] or [rejected]. *)
Theorem ledger_stays_well_formed (acts : list Action) (w : World) :
  ledger_wf (changeRequests w) ->
  forall k r, changeRequests (run acts w) !! k = Some r ->
    id r = k
    /\ (exists t key, addressed_leaf (field r) = Some (t, key))
    /\ (reviewed r = true <-> is_Some (reviewedBy r))
    /\ (reviewed r = true <-> is_Some (reviewedAt r)).
Proof.
  intros Hwf k r Hr.
  destruct (run_wf acts w Hwf) as [Hkeyed Hw].
  destruct (Hw k r Hr) as [(t & key & Hpath) Hrev].
  split; [by apply Hkeyed|]. split.
  - exists t, key. rewrite Hpath. apply addressed_leaf_field_path.
  - unfold reviewed. destruct (status r); destruct Hrev as [H1 H2];
      try (rewrite H1, H2; split; split; try done; by intros [? ?]);
      split; split; done.
Qed.

Lemma ledger_stays_well_formed_witness :
  id Sample.request_cr_1 = "cr_1"
  /\ (exists t key, addressed_leaf (field Sample.request_cr_1) = Some (t, key))
  /\ (reviewed Sample.request_cr_1 = true <-> is_Some (reviewedBy Sample.request_cr_1))
  /\ (reviewed Sample.request_cr_1 = true <-> is_Some (reviewedAt Sample.request_cr_1)).
Proof.
  apply (ledger_stays_well_formed
           [Login Sample.mtn_rep;
            Edit "check_balance" mtn Code "*125#" "2025-11-02T08:00:00.000Z" "cr_1";
            Submit "cr_1" "2025-11-02T08:01:00.000Z";
            Logout;
            Login Sample.the_admin] Sample.start ledger_wf_empty "cr_1").
  vm_compute. reflexivity.
Defined.

(** X4.  A reviewed request is final: under a ledger keyed by id, no event
    changes a request that is [approved] or [rejected], unless it is the
    cancellation of that request or an edit whose generated id is the
    request's. *)
Theorem reviewed_request_is_final (a : Action) (w : World) (k : string)
    (r : ChangeRequest) :
  keyed_by_id (changeRequests w) ->
  changeRequests w !! k = Some r ->
  reviewed r = true ->
  spares a k ->
  changeRequests (world (perform a w)) !! k = Some r.
Proof.
  intros Hkeyed Hr Hrev Hsp.
  assert (Hother : forall requestId x st,
            changeRequests w !! requestId = Some x -> status x = st ->
            reviewed r = true -> st = draft \/ st = pending ->
            requestId <> k).
  { intros requestId x st Hx Hst _ Hor ->.
    assert (x = r) as -> by congruence.
    unfold reviewed in Hrev. destruct Hor as [-> | ->]; by rewrite Hst in Hrev. }
  destruct a as [s| |sid0|sid telco key value now fresh|rid now|rid now
                |rid n1 n2|rid c now|rid]; cbn in Hsp |- *; try done.
  - unfold removeService. by destruct (negb _).
  - unfold setTelcoField.
    destruct (negb _); [done|].
    destruct (services w !! sid) as [service|]; [|done].
    destruct (is_admin _); [done|].
    destruct (is_telco _ _); [|done].
    destruct (find_request _ _) as [d|] eqn:Hfind; cbn.
    + apply find_request_Some in Hfind as [Hp [k0 Hk0]].
      apply draft_test_true in Hp as (_ & _ & Hst).
      rewrite (Hkeyed k0 d Hk0).
      rewrite lookup_insert_ne; [done|].
      apply (Hother k0 d draft); auto.
    + by rewrite lookup_insert_ne.
  - unfold submitDraftChange.
    destruct (changeRequests w !! rid) as [x|] eqn:Hx; [|done].
    destruct (bool_decide (status x = draft)) eqn:Hst; [|done]. cbn.
    apply bool_decide_eq_true in Hst.
    rewrite lookup_insert_ne; [done|]. apply (Hother _ x draft); auto.
  - unfold recallPendingChange.
    destruct (changeRequests w !! rid) as [x|] eqn:Hx; [|done].
    destruct (bool_decide (status x = pending)) eqn:Hst; [|done]. cbn.
    apply bool_decide_eq_true in Hst.
    rewrite lookup_insert_ne; [done|]. apply (Hother _ x pending); auto.
  - unfold approveChangeRequest.
    destruct (negb _); [done|].
    destruct (changeRequests w !! rid) as [x|] eqn:Hx; [|done].
    destruct (bool_decide (status x = pending)) eqn:Hst; [|done]. cbn.
    apply bool_decide_eq_true in Hst.
    destruct (services w !! serviceId x); [|done]. cbn.
    rewrite lookup_insert_ne; [done|]. apply (Hother _ x pending); auto.
  - unfold rejectChangeRequest.
    destruct (negb _); [done|].
    destruct (changeRequests w !! rid) as [x|] eqn:Hx; [|done].
    destruct (bool_decide (status x = pending)) eqn:Hst; [|done]. cbn.
    apply bool_decide_eq_true in Hst.
    rewrite lookup_insert_ne; [done|]. apply (Hother _ x pending); auto.
  - by rewrite lookup_delete_ne.
Qed.

Lemma reviewed_request_is_final_witness :
  (status <$>
     changeRequests
       (world (perform (Recall "cr_1" "2025-11-04T09:00:00.000Z")
                 (run [Approve "cr_1" "2025-11-03T10:00:00.000Z"
                         "2025-11-03T10:00:00.001Z"] Sample.submitted)))
       !! "cr_1") = Some approved.
Proof.
  rewrite (reviewed_request_is_final
             (Recall "cr_1" "2025-11-04T09:00:00.000Z")
             (run [Approve "cr_1" "2025-11-03T10:00:00.000Z"
                     "2025-11-03T10:00:00.001Z"] Sample.submitted)
             "cr_1"
             {| id := "cr_1"; serviceId := "check_balance";
                field := "telcos.mtn.code"; oldValue := "*124#";
                newValue := "*125#"; requestedBy := "Kofi";
                requestedAt := "2025-11-02T08:01:00.000Z"; status := approved;
                reviewedBy := Some "Ama";
                reviewedAt := Some "2025-11-03T10:00:00.001Z";
                comments := None |}).
  - reflexivity.
  - apply (run_wf
             [Login Sample.mtn_rep;
              Edit "check_balance" mtn Code "*125#" "2025-11-02T08:00:00.000Z" "cr_1";
              Submit "cr_1" "2025-11-02T08:01:00.000Z";
              Logout;
              Login Sample.the_admin;
              Approve "cr_1" "2025-11-03T10:00:00.000Z" "2025-11-03T10:00:00.001Z"]
             Sample.start ledger_wf_empty).
  - vm_compute. reflexivity.
  - reflexivity.
  - exact I.
Defined.

(** ** Who may write what *)

Lemma no_draft_found (w : World) (sid : string) (telco : TelcoKey) (key : InfoKey) :
  (forall k r, changeRequests w !! k = Some r ->
     ~ (serviceId r = sid /\ field r = field_path telco key /\ status r = draft)) ->
  find_request
    (fun req =>
       String.eqb (serviceId req) sid
       && String.eqb (field req) (field_path telco key)
       && bool_decide (status req = draft))
    (changeRequests w) = None.
Proof.
  intros Hnone.
  destruct (find_request _ _) as [d|] eqn:Hfind; [|done].
  apply find_request_Some in Hfind as [Hp [k Hk]].
  apply draft_test_true in Hp. by destruct (Hnone k d Hk).
Qed.

(** X5.  The first edit of a field by the representative of its network
    opens a draft under the generated id: the draft records the catalog's
    current value of the leaf as [oldValue], the typed value as [newValue]
    and the session's display name; the catalog is not touched. *)
Theorem first_edit_opens_draft (w : World) (sid : string) (telco : TelcoKey)
    (key : InfoKey) (value now fresh : string) (service : ServiceEntry) :
  current_role w = Some (telco_role telco) ->
  services w !! sid = Some service ->
  (forall k r, changeRequests w !! k = Some r ->
     ~ (serviceId r = sid /\ field r = field_path telco key /\ status r = draft)) ->
  let w' := world (setTelcoField w sid telco key value now fresh) in
  changeRequests w'
  = <[fresh := {| id := fresh; serviceId := sid; field := field_path telco key;
                  oldValue := info_get key (telco_get telco (telcos service));
                  newValue := value;
                  requestedBy := display_or w "Unknown User";
                  requestedAt := now; status := draft;
                  reviewedBy := None; reviewedAt := None; comments := None |}]>
      (changeRequests w)
  /\ services w' = services w.
Proof.
  intros Hrole Hsvc Hnone. cbn zeta. unfold setTelcoField.
  rewrite Hrole, Hsvc. cbn [is_admin is_telco orb negb].
  rewrite bool_decide_eq_true_2 by done. cbn [negb].
  by rewrite (no_draft_found w sid telco key Hnone).
Qed.

Lemma first_edit_opens_draft_witness :
  let w := run [Login Sample.mtn_rep] Sample.start in
  changeRequests
    (world (setTelcoField w "check_balance" mtn Code "*125#"
              "2025-11-02T08:00:00.000Z" "cr_1"))
  = {[ "cr_1" :=
         {| id := "cr_1"; serviceId := "check_balance";
            field := "telcos.mtn.code"; oldValue := "*124#";
            newValue := "*125#"; requestedBy := "Kofi";
            requestedAt := "2025-11-02T08:00:00.000Z"; status := draft;
            reviewedBy := None; reviewedAt := None; comments := None |} ]}.
Proof.
  cbn zeta.
  destruct (first_edit_opens_draft (run [Login Sample.mtn_rep] Sample.start)
              "check_balance" mtn Code "*125#" "2025-11-02T08:00:00.000Z" "cr_1"
              Sample.check_balance) as [H _].
  - reflexivity.
  - vm_compute. reflexivity.
  - intros k r Hr. vm_compute in Hr. discriminate.
  - rewrite H. vm_compute. reflexivity.
Defined.

Lemma info_get_set_ne (k k' : InfoKey) (v : string) (i : TelcoInfo) :
  k <> k' -> info_get k' (info_set k v i) = info_get k' i.
Proof. destruct k, k'; intros H; try reflexivity; contradiction. Qed.

(** X6.  An edit by the administrator goes straight to the catalog: the
    leaf holds the typed value, [lastUpdated] is the clock reading, the
    rest of the entry and the other services are as they were, and the
    ledger is left alone. *)
Theorem admin_edit_bypasses_ledger (w : World) (sid : string) (telco : TelcoKey)
    (key : InfoKey) (value now fresh : string) (service : ServiceEntry) :
  current_role w = Some admin ->
  services w !! sid = Some service ->
  let o := setTelcoField w sid telco key value now fresh in
  changeRequests (world o) = changeRequests w
  /\ alerts o = []
  /\ (forall k, k <> sid -> services (world o) !! k = services w !! k)
  /\ exists service',
       services (world o) !! sid = Some service'
       /\ info_get key (telco_get telco (telcos service')) = value
       /\ lastUpdated service' = now
       /\ Utils.same_outside telco service service'
       /\ forall key', key' <> key ->
            info_get key' (telco_get telco (telcos service'))
            = info_get key' (telco_get telco (telcos service)).
Proof.
  intros Hrole Hsvc. cbn zeta. unfold setTelcoField.
  rewrite Hrole, Hsvc. cbn [is_admin orb negb].
  cbn [world alerts unchanged persist changeRequests services].
  split; [done|]. split; [done|]. split.
  - intros k Hk. by rewrite lookup_insert_ne.
  - eexists. split; [apply lookup_insert_eq|]. cbn.
    rewrite telco_get_set. split; [apply info_get_set|]. split; [done|].
    split; [apply patched_same_outside|].
    intros key' Hne. by apply info_get_set_ne.
Qed.

Lemma admin_edit_bypasses_ledger_witness :
  let o := setTelcoField Sample.submitted "check_balance" glo Explanation
             "Dial for your Glo balance." "2025-11-03T11:00:00.000Z" "cr_7" in
  changeRequests (world o) = changeRequests Sample.submitted
  /\ ((fun s => explanation (t_glo (telcos s)))
        <$> services (world o) !! "check_balance")
     = Some "Dial for your Glo balance.".
Proof.
  cbn zeta.
  destruct (admin_edit_bypasses_ledger Sample.submitted "check_balance" glo
              Explanation "Dial for your Glo balance."
              "2025-11-03T11:00:00.000Z" "cr_7" Sample.check_balance)
    as (Hl & _ & _ & s' & Hs' & Hv & _);
    [reflexivity | vm_compute; reflexivity |].
  split; [exact Hl|]. rewrite Hs'. cbn. by rewrite <- Hv.
Defined.

(** X7.  Without an administrator's session no event changes the catalog:
    edits, submissions, recalls, cancellations, and the administrator's
    handlers when somebody else calls them, leave every service as it
    is. *)
Theorem catalog_changes_need_admin (a : Action) (w : World) :
  is_admin (current_role w) = false ->
  services (world (perform a w)) = services w.
Proof.
  intros Hadm.
  destruct a as [s| |sid0|sid telco key value now fresh|rid now|rid now
                |rid n1 n2|rid c now|rid]; cbn; try done.
  - unfold removeService. by rewrite Hadm.
  - unfold setTelcoField. rewrite Hadm.
    destruct (negb _); [done|].
    destruct (services w !! sid); [|done].
    destruct (is_telco _ _); [|done].
    by destruct (find_request _ _).
  - unfold submitDraftChange.
    destruct (changeRequests w !! rid); [|done]. by destruct (negb _).
  - unfold recallPendingChange.
    destruct (changeRequests w !! rid); [|done]. by destruct (negb _).
  - unfold approveChangeRequest. by rewrite Hadm.
  - unfold rejectChangeRequest. by rewrite Hadm.
Qed.

Lemma catalog_changes_need_admin_witness :
  services
    (world (perform (Approve "cr_1" "2025-11-03T10:00:00.000Z"
                       "2025-11-03T10:00:00.001Z")
              (run [Logout; Login Sample.mtn_rep] Sample.submitted)))
  = services (run [Logout; Login Sample.mtn_rep] Sample.submitted).
Proof. apply catalog_changes_need_admin. reflexivity. Defined.

(** X8.  A representative writes only drafts for the own network: after
    [setTelcoField] in the session of the representative of network [t],
    whatever network the call names, every request of the ledger was there
    before or is a draft whose field lies under [t]; the catalog is as it
    was. *)
Theorem rep_writes_only_own_network (w : World) (t : TelcoKey) (sid : string)
    (telco : TelcoKey) (key : InfoKey) (value now fresh : string) :
  current_role w = Some (telco_role t) ->
  let w' := world (setTelcoField w sid telco key value now fresh) in
  services w' = services w
  /\ (t <> telco -> w' = w)
  /\ forall k r, changeRequests w' !! k = Some r ->
       changeRequests w !! k = Some r
       \/ (status r = draft /\ exists key', field r = field_path t key').
Proof.
  intros Hrole. cbn zeta. unfold setTelcoField. rewrite Hrole.
  cbn [is_admin is_telco orb].
  destruct (decide (t = telco)) as [->|Hne].
  - rewrite bool_decide_eq_true_2 by done. cbn [negb].
    destruct (services w !! sid) as [service|]; [|by auto].
    destruct (find_request _ _) as [d|] eqn:Hfind; cbn.
    + apply find_request_Some in Hfind as [Hp _].
      apply draft_test_true in Hp as (_ & Hf & Hst).
      split; [done|]. split; [done|]. intros k r Hr.
      destruct (decide (id d = k)) as [<-|Hk].
      * rewrite lookup_insert_eq in Hr. injection Hr as <-. right. by eauto.
      * rewrite lookup_insert_ne in Hr by done. by left.
    + split; [done|]. split; [done|]. intros k r Hr.
      destruct (decide (fresh = k)) as [<-|Hk].
      * rewrite lookup_insert_eq in Hr. injection Hr as <-. right. by eauto.
      * rewrite lookup_insert_ne in Hr by done. by left.
  - rewrite bool_decide_eq_false_2 by done. cbn. by auto.
Qed.

Lemma rep_writes_only_own_network_witness :
  let w := run [Login {| role := telco_role telecel; displayName := "Esi" |}]
             Sample.start in
  world (setTelcoField w "check_balance" mtn Code "*999#"
           "2025-11-02T08:00:00.000Z" "cr_1") = w.
Proof.
  cbn zeta.
  apply (rep_writes_only_own_network
           (run [Login {| role := telco_role telecel; displayName := "Esi" |}]
              Sample.start) telecel "check_balance" mtn Code "*999#"
           "2025-11-02T08:00:00.000Z" "cr_1"); [reflexivity | discriminate].
Defined.

End LedgerRuns.
(* ================================================================== *)
(** * Catalog administration *)
(* ================================================================== *)

Section Administration.
Import App.
Import Admin.

#[local] Instance new_service_id_inj : Inj (=) (=) new_service_id.
Proof.
  intros i j H. unfold new_service_id in H.
  apply (inj (String.app "new_service_")) in H. by apply (inj pretty) in H.
Qed.

(** What the loop of [addService] returns: the first free candidate, or
    nothing when all the candidates it may test are taken. *)
Lemma first_free_spec (m : ServiceMap) (fuel idx : nat) :
  match first_free m fuel idx with
  | Some sid =>
      exists i, (idx <= i < idx + fuel)%nat /\ sid = new_service_id i
        /\ m !! sid = None
        /\ forall j, (idx <= j < i)%nat -> is_Some (m !! new_service_id j)
  | None =>
      forall j, (idx <= j < idx + fuel)%nat -> is_Some (m !! new_service_id j)
  end.
Proof.
  revert idx. induction fuel as [|fuel IH]; intros idx; cbn.
  - intros j Hj. lia.
  - destruct (m !! new_service_id idx) as [s|] eqn:Hs.
    + specialize (IH (S idx)).
      destruct (first_free m fuel (S idx)) as [sid|].
      * destruct IH as (i & Hi & -> & Hfree & Hbelow).
        exists i. split; [lia|]. split; [done|]. split; [done|].
        intros j Hj. destruct (decide (j = idx)) as [->|Hne]; [by eexists|].
        apply Hbelow. lia.
      * intros j Hj. destruct (decide (j = idx)) as [->|Hne]; [by eexists|].
        apply IH. lia.
    + exists idx. split; [lia|]. split; [done|]. split; [done|].
      intros j Hj. lia.
Qed.

(** A catalog cannot hold more candidates than it has entries. *)
Lemma taken_candidates_bound (m : ServiceMap) (idx n : nat) :
  (forall j, (idx <= j < idx + n)%nat -> is_Some (m !! new_service_id j)) ->
  (n <= size m)%nat.
Proof.
  intros Htaken.
  set (l := new_service_id <$> seq idx n).
  assert (Hnd : NoDup l) by (apply (NoDup_fmap_2 _), NoDup_seq).
  assert (Hsub : (list_to_set l : gset string) ⊆ dom m).
  { intros x Hx. apply elem_of_list_to_set in Hx.
    apply list_elem_of_fmap in Hx as (j & -> & Hj).
    apply elem_of_seq in Hj. apply elem_of_dom, Htaken. lia. }
  apply subseteq_size in Hsub.
  rewrite size_list_to_set, size_dom in Hsub by done.
  unfold l in Hsub. by rewrite length_fmap, length_seq in Hsub.
Qed.

(** X9.  [addService] always comes back: its loop finds a free id within
    one test more than the catalog has entries.  For the administrator it
    adds one blank, active entry under the first id [new_service_<i>],
    counting from 1, that the catalog does not use, and changes no existing
    entry; for anybody else it does nothing. *)
Theorem addService_adds_fresh_entry (w : World) (now : string) :
  exists o, addService w now = Some o
    /\ alerts o = []
    /\ changeRequests (world o) = changeRequests w
    /\ (is_admin (current_role w) = false -> world o = w)
    /\ (is_admin (current_role w) = true ->
        exists i, (1 <= i <= S (size (services w)))%nat
          /\ services w !! new_service_id i = None
          /\ (forall j, (1 <= j < i)%nat ->
                is_Some (services w !! new_service_id j))
          /\ services (world o)
             = <[new_service_id i := new_entry (new_service_id i) now]>
                 (services w)).
Proof.
  unfold addService.
  destruct (is_admin (current_role w)) eqn:Hadm; cbn [negb].
  - pose proof (first_free_spec (services w) (S (size (services w))) 1) as Hspec.
    destruct (first_free _ _ _) as [sid|].
    + destruct Hspec as (i & Hi & -> & Hfree & Hbelow).
      eexists. split; [reflexivity|]. cbn.
      split; [done|]. split; [done|]. split; [done|]. intros _.
      exists i. split; [lia|]. done.
    + apply taken_candidates_bound in Hspec. lia.
  - eexists. split; [reflexivity|]. cbn. by destruct w.
Qed.

Lemma addService_adds_fresh_entry_witness :
  exists o, addService Sample.submitted "2025-11-03T12:00:00.000Z" = Some o
    /\ exists i, services (world o)
         = <[new_service_id i :=
               new_entry (new_service_id i) "2025-11-03T12:00:00.000Z"]>
             (services Sample.submitted).
Proof.
  destruct (addService_adds_fresh_entry Sample.submitted
              "2025-11-03T12:00:00.000Z") as (o & Ho & _ & _ & _ & Hadm).
  exists o. split; [exact Ho|].
  destruct (Hadm eq_refl) as (i & _ & _ & _ & Hs). by exists i.
Defined.

(** A service renamed to [__proto__] is lost, and the request filed for it
    stays in the ledger. *)
Example rename_to_proto_computed :
  (fun w1 => (dom (services w1), dom (changeRequests w1)))
    (world (setField Sample.submitted "check_balance" (F_service_id "__proto__")
              "2025-11-03T09:00:00.000Z"))
  = (∅, {["cr_1"]}).
Proof. vm_compute. reflexivity. Qed.

(** The first two additions to the sample catalog. *)
Example addService_twice :
  (o ← addService Sample.submitted "t1";
   o' ← addService (world o) "t2";
   Some (dom (services (world o'))))
  = Some ({["check_balance"; "new_service_1"; "new_service_2"]} : gset string).
Proof. vm_compute. reflexivity. Qed.




(** X11.  Outside an administrator's session [setField] changes neither
    the keys of the catalog nor the id, the name or the active flag of any
    entry, and it never touches the ledger. *)
Theorem setField_guards_identity (w : World) (sid : string) (f : FieldValue)
    (now : string) :
  is_admin (current_role w) = false ->
  let w' := world (setField w sid f now) in
  changeRequests w' = changeRequests w
  /\ (admin_only f = true -> w' = w)
  /\ (forall k, services w' !! k = None <-> services w !! k = None)
  /\ forall k s s', services w !! k = Some s -> services w' !! k = Some s' ->
       service_id s' = service_id s
       /\ service_name s' = service_name s
       /\ active s' = active s.
Proof.
  intros Hadm. cbn zeta. unfold setField. rewrite Hadm. cbn [negb andb].
  destruct (services w !! sid) as [s0|] eqn:Hs0.
  2:{ cbn. repeat split; try done. all: intros; by simplify_eq. }
  destruct f; cbn [admin_only];
    try (cbn; repeat split; try done; intros; by simplify_eq).
  all: cbn [world unchanged persist services changeRequests].
  all: split; [done|]; split; [done|]; split.
  all: try (intros k; destruct (decide (sid = k)) as [<-|Hk];
            [rewrite lookup_insert_eq, Hs0; split; done
            |by rewrite lookup_insert_ne]).
  all: intros k s s' Hs Hs'; destruct (decide (sid = k)) as [<-|Hk];
    [rewrite lookup_insert_eq in Hs'; by simplify_eq
    |rewrite lookup_insert_ne in Hs' by done; by simplify_eq].
Qed.

Lemma setField_guards_identity_witness :
  world (setField (run [Logout; Login Sample.mtn_rep] Sample.submitted)
           "check_balance" (F_service_name "Balance")
           "2025-11-03T09:00:00.000Z")
  = run [Logout; Login Sample.mtn_rep] Sample.submitted.
Proof.
  apply (setField_guards_identity
           (run [Logout; Login Sample.mtn_rep] Sample.submitted)
           "check_balance" (F_service_name "Balance")
           "2025-11-03T09:00:00.000Z"); reflexivity.
Defined.

End Administration.
Section VersionsImportLogin.
Import App.
Import Admin.

(** ** Versions *)

Lemma take_app_take {A : Type} (n : nat) (l1 l2 : list A) :
  take n (l1 ++ take n l2) = take n (l1 ++ l2).
Proof.
  rewrite !take_app, take_take. do 2 f_equal. lia.
Qed.

Lemma save_all_latest (saves : list (World * LocalTime * string))
    (versions : list VersionRecord) :
  (length versions <= 5)%nat ->
  save_all versions saves
  = take 5 (reverse (map record_of saves) ++ versions).
Proof.
  unfold save_all. revert versions.
  induction saves as [|s saves IH]; intros versions Hlen; cbn [foldl map].
  - cbn. by rewrite take_ge.
  - rewrite IH by (unfold saveVersion; cbn [fst]; rewrite length_take; lia).
    unfold saveVersion. cbn [fst].
    rewrite take_app_take, reverse_cons, <- app_assoc. done.
Qed.

(** X12.  The list of versions holds the five most recent saves, newest
    first: after any series of saves it is the first five of the new
    records, in reverse order of saving, followed by the versions there
    were. *)
Theorem versions_keep_latest_five (saves : list (World * LocalTime * string))
    (versions : list VersionRecord) :
  (length versions <= 5)%nat ->
  save_all versions saves
  = take 5 (reverse (map record_of saves) ++ versions)
  /\ (length (save_all versions saves) <= 5)%nat.
Proof.
  intros Hlen. rewrite save_all_latest by done.
  split; [done|]. rewrite length_take. lia.
Qed.

Lemma versions_keep_latest_five_witness :
  save_all [] [(Sample.start, {| year := 2025; month := 10; day := 1;
                                 hours := 9; minutes := 30; seconds := 5 |},
                "2025-11-01T09:30:05.000Z")]
  = [{| timestamp := "2025-11-01T09:30:05.000Z";
        label := "2025-11-01 09:30:05";
        snapshot := Sample.catalog |}].
Proof.
  destruct (versions_keep_latest_five
              [(Sample.start, {| year := 2025; month := 10; day := 1;
                                 hours := 9; minutes := 30; seconds := 5 |},
                "2025-11-01T09:30:05.000Z")] []) as [H _]; [cbn; lia|].
  rewrite H. vm_compute. reflexivity.
Defined.

(** X13.  A saved version can be restored as long as at most four saves
    have followed it: restoring the entry that many places down the list
    puts back the catalog of the moment of the save, whatever has happened
    to the catalog since, and keeps the ledger and the session of the
    moment of the restore. *)
Theorem saved_version_restores (versions : list VersionRecord) (w : World)
    (d : LocalTime) (iso : string)
    (later : list (World * LocalTime * string)) (w' : World) :
  (length later <= 4)%nat ->
  restoreVersion (save_all (saveVersion versions w d iso).1 later) w'
    (length later)
  = {| world := {| services := services w;
                   changeRequests := changeRequests w';
                   session := session w' |};
       alerts := ["Restored version: " +:+ tsLabel d] |}.
Proof.
  intros Hlen. unfold restoreVersion.
  rewrite save_all_latest
    by (unfold saveVersion; cbn [fst]; rewrite length_take; lia).
  unfold saveVersion. cbn [fst]. rewrite take_app_take.
  rewrite lookup_take_lt by lia.
  assert (Hn : length later = length (reverse (map record_of later)))
    by by rewrite length_reverse, length_map.
  rewrite Hn at 1. rewrite list_lookup_middle by done. done.
Qed.

Lemma saved_version_restores_witness :
  services
    (world
       (restoreVersion
          (save_all
             (saveVersion [] Sample.start
                {| year := 2025; month := 10; day := 1;
                   hours := 9; minutes := 30; seconds := 5 |}
                "2025-11-01T09:30:05.000Z").1 [])
          Sample.orphaned 0))
  = Sample.catalog.
Proof.
  pose proof (saved_version_restores [] Sample.start
                {| year := 2025; month := 10; day := 1;
                   hours := 9; minutes := 30; seconds := 5 |}
                "2025-11-01T09:30:05.000Z" [] Sample.orphaned
                ltac:(cbn; lia)) as H.
  cbn [length] in H. rewrite H. reflexivity.
Defined.

(** ** Import *)

Lemma invalid_root_throws (clock : string -> string) (parsed : json) :
  typeof_object parsed = false \/ isArray parsed = true ->
  Utils.normalizeImported clock parsed
  = Throw (Error "Invalid JSON root. Expected an object.").
Proof.
  unfold Utils.normalizeImported.
  intros [H | H]; rewrite H; [done | by rewrite orb_true_r].
Qed.

(** X14.  An import never touches the ledger or the session, and opens
    exactly one alert: either it reports success, or it reports the failure
    with the error's message and leaves the catalog as it was.  For the
    administrator a file whose root is an array, a string, a number or a
    boolean fails in this way. *)
Theorem import_fails_safely (w : World) (file : FileText)
    (clock : string -> string) (engine : string) :
  let o := handleImport w file clock engine in
  changeRequests (world o) = changeRequests w
  /\ session (world o) = session w
  /\ (alerts o = ["Import successful."]
      \/ (world o = w /\ exists msg, alerts o = ["Import failed: " +:+ msg]))
  /\ (current_role w = Some admin ->
      forall parsed, file = Parses parsed ->
        typeof_object parsed = false \/ isArray parsed = true ->
        o = {| world := w;
               alerts := ["Import failed: Invalid JSON root. Expected an object."] |}).
Proof.
  cbn zeta. unfold handleImport.
  destruct file as [parsed|msg].
  2:{ cbn. repeat split; try done. right. by eauto. }
  destruct (current_role w) as [[|t]|] eqn:Hrole.
  - destruct (Utils.normalizeImported clock parsed) as [m|e] eqn:Hn; cbn.
    + split; [done|]. split; [done|]. split; [by left|].
      intros _ p [= <-] Hroot.
      rewrite (invalid_root_throws clock parsed Hroot) in Hn. done.
    + split; [done|]. split; [done|]. split; [right; by eauto|].
      intros _ p [= <-] Hroot.
      rewrite (invalid_root_throws clock parsed Hroot) in Hn.
      by injection Hn as <-.
  - destruct (Utils.applyTelcoSubset clock (services w) t parsed); cbn;
      (split; [done|]; split; [done|]; split; [|done]);
      [by left | right; by eauto].
  - cbn. split; [done|]. split; [done|]. split; [by left | done].
Qed.

Lemma import_fails_safely_witness :
  handleImport Sample.submitted (Parses (JArr [])) (fun _ => "t") "engine text"
  = {| world := Sample.submitted;
       alerts := ["Import failed: Invalid JSON root. Expected an object."] |}.
Proof.
  destruct (import_fails_safely Sample.submitted (Parses (JArr []))
              (fun _ => "t") "engine text") as (_ & _ & _ & H).
  apply (H eq_refl (JArr []) eq_refl). by right.
Defined.

(** X15.  Whatever file the representative of network [t] imports, and
    whether the import succeeds or fails, the catalog keeps its keys and
    every entry keeps its id, name, guidance note, active flag and the
    records of the other networks. *)
Theorem rep_import_touches_own_network (w : World) (t : TelcoKey)
    (file : FileText) (clock : string -> string) (engine : string) :
  current_role w = Some (telco_role t) ->
  let w' := world (handleImport w file clock engine) in
  (forall k, services w !! k = None -> services w' !! k = None)
  /\ forall k s, services w !! k = Some s ->
       exists s', services w' !! k = Some s'
         /\ service_id s' = service_id s
         /\ service_name s' = service_name s
         /\ description s' = description s
         /\ active s' = active s
         /\ forall t', t' <> t ->
              telco_get t' (telcos s') = telco_get t' (telcos s).
Proof.
  intros Hrole. cbn zeta.
  assert (Hframed : Utils.framed t (services w)
                      (services (world (handleImport w file clock engine)))).
  { unfold handleImport. destruct file as [parsed|msg]; [|apply framed_refl].
    rewrite Hrole. unfold Utils.applyTelcoSubset.
    destruct (entries parsed) as [es|]; [|apply framed_refl].
    destruct (Utils.apply_patches clock t es (services w)) as [next|e] eqn:Hp;
      [|apply framed_refl].
    by apply apply_patches_frame in Hp as [Hf _]. }
  destruct Hframed as [Hnone Hsome]. split; [exact Hnone|].
  intros k s Hs. destruct (Hsome k s Hs) as (s' & Hs' & Hsame). by exists s'.
Qed.

Lemma rep_import_touches_own_network_witness :
  exists s',
    services
      (world (handleImport (run [Logout; Login Sample.mtn_rep] Sample.submitted)
                (Parses Sample.mtn_subset) (fun _ => "2025-11-03T10:00:00.000Z")
                "engine text")) !! "check_balance" = Some s'
    /\ service_id s' = "check_balance"
    /\ service_name s' = "Check Airtime Balance"
    /\ description s' = description Sample.check_balance
    /\ active s' = true
    /\ forall t', t' <> mtn ->
         telco_get t' (telcos s') = telco_get t' (telcos Sample.check_balance).
Proof.
  destruct (rep_import_touches_own_network
              (run [Logout; Login Sample.mtn_rep] Sample.submitted) mtn
              (Parses Sample.mtn_subset) (fun _ => "2025-11-03T10:00:00.000Z")
              "engine text" eq_refl) as [_ H].
  apply (H "check_balance" Sample.check_balance).
  vm_compute. reflexivity.
Defined.

(** ** Login *)

Lemma handleLogin_session (name : string) (r : Role) (password : string)
    (s : Session) :
  handleLogin name r password = inr s
  <-> (password = password_of r /\ trim name <> ""
       /\ s = {| role := r; displayName := trim name |}).
Proof.
  unfold handleLogin. fold (password_of r).
  destruct (String.eqb_spec password (password_of r)) as [Hp|Hp]; cbn [negb].
  - destruct (String.eqb_spec (trim name) "") as [Hn|Hn].
    + split; [done | by intros (_ & ? & _)].
    + split; [by intros [= <-] | by intros (_ & _ & ->)].
  - split; [done | by intros (? & _)].
Qed.

(** X16.  [handleLogin] opens a session exactly when the password is the
    one of the chosen role and the name is not blank; the session carries
    the chosen role and the trimmed name, which is not empty and has no
    white space left at either end. *)
Theorem login_needs_password_and_name (name : string) (r : Role)
    (password : string) (s : Session) :
  (handleLogin name r password = inr s
   <-> (password = password_of r /\ trim name <> ""
        /\ s = {| role := r; displayName := trim name |}))
  /\ (handleLogin name r password = inr s ->
      displayName s <> "" /\ trim (displayName s) = displayName s).
Proof.
  split; [apply handleLogin_session|].
  intros H. apply handleLogin_session in H as (_ & Hn & ->).
  cbn. split; [done | apply trim_idem].
Qed.

Lemma login_needs_password_and_name_witness :
  displayName {| role := telco_role mtn; displayName := "Kofi" |} <> ""
  /\ trim (displayName {| role := telco_role mtn; displayName := "Kofi" |})
     = displayName {| role := telco_role mtn; displayName := "Kofi" |}.
Proof.
  apply (proj2 (login_needs_password_and_name "  Kofi " (telco_role mtn)
                  "password54321!"
                  {| role := telco_role mtn; displayName := "Kofi" |})).
  vm_compute. reflexivity.
Defined.

End VersionsImportLogin.
Section Labels.
Import App.
Import Admin.

(** ** Labels of versions *)

Lemma pad_two_digits (n : N) :
  (n < 100)%N -> exists a b, pad n = String a (String b "").
Proof.
  intros Hn.
  assert (Hall : forallb (fun n => Nat.eqb (String.length (pad (N.of_nat n))) 2)
                   (seq 0 100) = true)
    by (vm_compute; reflexivity).
  rewrite forallb_forall in Hall.
  specialize (Hall (N.to_nat n)). rewrite N2Nat.id, Nat.eqb_eq in Hall.
  assert (Hin : In (N.to_nat n) (seq 0 100)) by (apply in_seq; lia).
  specialize (Hall Hin).
  destruct (pad n) as [|a [|b [|c s]]]; cbn in Hall; try lia. by eauto.
Qed.

Lemma year_four_digits (n : N) :
  (1000 <= n < 10000)%N ->
  exists a b c d, pretty n = String a (String b (String c (String d ""))).
Proof.
  intros Hn.
  assert (Hall : forallb
                   (fun n => Nat.eqb (String.length (pretty (N.of_nat n))) 4)
                   (seq (10 * 100) (90 * 100)) = true)
    by (vm_compute; reflexivity).
  rewrite forallb_forall in Hall.
  specialize (Hall (N.to_nat n)). rewrite N2Nat.id, Nat.eqb_eq in Hall.
  assert (Hin : In (N.to_nat n) (seq (10 * 100) (90 * 100)))
    by (apply in_seq; lia).
  specialize (Hall Hin).
  destruct (pretty n) as [|a [|b [|c [|d [|e s]]]]]; cbn in Hall; try lia.
  by eauto 6.
Qed.

(** X28.  The label of a version has the shape [YYYY-MM-DD HH:MM:SS]: for a
    date with a four-digit year it is nineteen code units long, with the
    hyphens, the blank and the colons in their places, each field but the
    year padded to two digits. *)
Theorem tsLabel_shape (d : LocalTime) :
  (1000 <= year d < 10000)%N ->
  (month d < 12)%N -> (day d < 32)%N ->
  (hours d < 24)%N -> (minutes d < 60)%N -> (seconds d < 60)%N ->
  String.length (tsLabel d) = 19%nat
  /\ String.get 4 (tsLabel d) = Some "-"%char
  /\ String.get 7 (tsLabel d) = Some "-"%char
  /\ String.get 10 (tsLabel d) = Some " "%char
  /\ String.get 13 (tsLabel d) = Some ":"%char
  /\ String.get 16 (tsLabel d) = Some ":"%char.
Proof.
  intros Hy Hm Hd Hh Hmi Hs. unfold tsLabel.
  destruct (year_four_digits (year d) Hy) as (y1 & y2 & y3 & y4 & ->).
  destruct (pad_two_digits (month d + 1)) as (m1 & m2 & ->); [lia|].
  destruct (pad_two_digits (day d)) as (d1 & d2 & ->); [lia|].
  destruct (pad_two_digits (hours d)) as (h1 & h2 & ->); [lia|].
  destruct (pad_two_digits (minutes d)) as (i1 & i2 & ->); [lia|].
  destruct (pad_two_digits (seconds d)) as (s1 & s2 & ->); [lia|].
  cbn. done.
Qed.

Lemma tsLabel_shape_witness :
  String.length (tsLabel {| year := 2025; month := 10; day := 1;
                            hours := 9; minutes := 30; seconds := 5 |}) = 19%nat
  /\ String.get 4 (tsLabel {| year := 2025; month := 10; day := 1;
                              hours := 9; minutes := 30; seconds := 5 |}) = Some "-"%char
  /\ String.get 7 (tsLabel {| year := 2025; month := 10; day := 1;
                              hours := 9; minutes := 30; seconds := 5 |}) = Some "-"%char
  /\ String.get 10 (tsLabel {| year := 2025; month := 10; day := 1;
                               hours := 9; minutes := 30; seconds := 5 |}) = Some " "%char
  /\ String.get 13 (tsLabel {| year := 2025; month := 10; day := 1;
                               hours := 9; minutes := 30; seconds := 5 |}) = Some ":"%char
  /\ String.get 16 (tsLabel {| year := 2025; month := 10; day := 1;
                               hours := 9; minutes := 30; seconds := 5 |}) = Some ":"%char.
Proof.
  apply tsLabel_shape; cbn; lia.
Defined.

End Labels.
Section ImportShapes.
Import Utils.

(** ** What an import makes of a file *)



(** X18.  What a member of the file lacks is filled in: for a member under
    a name other than [__proto__], without a [service_name] the entry is
    named by its id, without a [description] it has no guidance note, and a
    network that the member does not mention gets an empty code and an
    empty explanation. *)
Theorem import_fills_defaults (clock : string -> string)
    (m : gmap string json) (k : string) (o : gmap string json)
    (imported : ServiceMap) :
  normalizeImported clock (JObj m) = Return imported ->
  m !! k = Some (JObj o) ->
  k <> "__proto__" ->
  exists s, imported !! k = Some s
    /\ (o !! "service_name" = None -> service_name s = k)
    /\ (o !! "description" = None -> description s = None)
    /\ forall t, o !! telco_name t = None ->
         telco_get t (telcos s) = {| code := ""; explanation := "" |}.
Proof.
  rewrite normalizeImported_object. intros [= <-] Hk _.
  exists (imported_entry (clock k) k (JObj o)). split.
  - by rewrite map_lookup_imap, Hk.
  - unfold imported_entry. cbn. split; [by intros ->|]. split; [by intros ->|].
    intros t Ht. destruct t; cbn in Ht |- *; unfold imported_info; cbn;
      by rewrite Ht.
Qed.

Lemma import_fills_defaults_witness :
  exists s,
    map_imap (import_candidate (fun _ => "2025-11-03T10:00:00.000Z"))
      {[ "send_money" := JObj ∅ ]} !! "send_money" = Some s
    /\ service_name s = "send_money"
    /\ telco_get glo (telcos s) = {| code := ""; explanation := "" |}.
Proof.
  destruct (import_fills_defaults (fun _ => "2025-11-03T10:00:00.000Z")
              {[ "send_money" := JObj ∅ ]} "send_money" ∅
              (map_imap (import_candidate (fun _ => "2025-11-03T10:00:00.000Z"))
                 {[ "send_money" := JObj ∅ ]}))
    as (s & Hs & Hname & _ & Htel).
  - apply normalizeImported_object.
  - vm_compute. reflexivity.
  - discriminate.
  - exists s. split; [exact Hs|]. split; [by apply Hname | by apply Htel].
Defined.

End ImportShapes.
Section SubsetFiles.
Import Utils.

(** ** Subset files *)

(** The subset export of a catalog stored under its ids: one member for
    each active entry, holding the code and the explanation of the
    network and nothing else. *)
Lemma subset_keyed_lookup (C : ServiceMap) (telco : TelcoKey) :
  (forall k s, C !! k = Some s -> service_id s = k) ->
  exists E, toTelcoSubset C telco = JObj E
    /\ forall k, E !! k
         = C !! k ≫= fun s =>
             if active s then Some (telco_json (telco_get telco (telcos s)))
             else None.
Proof.
  unfold toTelcoSubset. intros H. eexists. split; [reflexivity|].
  revert H.
  apply (map_fold_weak_ind
           (fun (r : gmap string json) (m : ServiceMap) =>
              (forall k s, m !! k = Some s -> service_id s = k) ->
              forall k, r !! k
                = m !! k ≫= fun s =>
                    if active s then Some (telco_json (telco_get telco (telcos s)))
                    else None)).
  - intros _ k. by rewrite !lookup_empty.
  - intros i x m r Hi IH H k.
    assert (Hid : service_id x = i) by (apply H, lookup_insert_eq).
    assert (Hm : forall j s, m !! j = Some s -> service_id s = j).
    { intros j s Hs. apply H. rewrite lookup_insert_ne; [done|].
      intros ->. congruence. }
    specialize (IH Hm). rewrite Hid.
    destruct (decide (i = k)) as [->|Hne].
    + rewrite lookup_insert_eq. cbn.
      destruct (active x); [by rewrite lookup_insert_eq|].
      by rewrite IH, Hi.
    + rewrite (lookup_insert_ne m) by done.
      destruct (active x); [rewrite lookup_insert_ne by done|]; apply IH.
Qed.

(** Every member of a subset export is the record of some entry. *)
Lemma subset_members (C : ServiceMap) (telco : TelcoKey) :
  exists E, toTelcoSubset C telco = JObj E
    /\ forall k v, E !! k = Some v -> exists i : TelcoInfo, v = telco_json i.
Proof.
  unfold toTelcoSubset. eexists. split; [reflexivity|].
  apply (map_fold_weak_ind
           (fun (r : gmap string json) (m : ServiceMap) =>
              forall k v, r !! k = Some v -> exists i : TelcoInfo, v = telco_json i)).
  - intros k v Hv. by rewrite lookup_empty in Hv.
  - intros i x m r Hi IH k v Hv.
    destruct (active x); [|by eauto].
    destruct (decide (service_id x = k)) as [Hk|Hk].
    + rewrite Hk, lookup_insert_eq in Hv. injection Hv as <-. by eexists.
    + rewrite lookup_insert_ne in Hv by done. by eauto.
Qed.

Lemma imported_entry_of_record (now k : string) (i : TelcoInfo) :
  imported_entry now k (telco_json i)
  = {| service_id := k; service_name := k; description := None;
       telcos := {| t_mtn := {| code := ""; explanation := "" |};
                    t_telecel := {| code := ""; explanation := "" |};
                    t_airteltigo := {| code := ""; explanation := "" |};
                    t_glo := {| code := ""; explanation := "" |} |};
       active := true; lastUpdated := now |}.
Proof. destruct i. reflexivity. Qed.

(** X19.  The full import takes a representative's subset file for a full
    export: importing the subset export of any network succeeds, and every
    entry it builds is named by its id and has an empty code and an empty
    explanation for all four networks. *)
Theorem import_of_subset_file_is_blank (clock : string -> string)
    (C : ServiceMap) (telco : TelcoKey) :
  exists imported,
    normalizeImported clock (toTelcoSubset C telco) = Return imported
    /\ forall k s, imported !! k = Some s ->
         service_name s = k
         /\ description s = None
         /\ forall t, telco_get t (telcos s) = {| code := ""; explanation := "" |}.
Proof.
  destruct (subset_members C telco) as (E & -> & Hmem).
  eexists. split; [apply normalizeImported_object|].
  intros k s Hs. rewrite map_lookup_imap in Hs.
  destruct (E !! k) as [v|] eqn:Hv; [|done]. cbn in Hs.
  destruct (Hmem k v Hv) as [i ->].
  unfold import_candidate in Hs. cbn in Hs. injection Hs as <-.
  rewrite imported_entry_of_record. cbn. split; [done|]. split; [done|].
  by intros [].
Qed.

Lemma apply_patch_own (clock : string -> string) (telco : TelcoKey)
    (m : ServiceMap) (k : string) (s : ServiceEntry) :
  m !! k = Some s ->
  apply_patch clock telco m k (telco_json (telco_get telco (telcos s)))
  = Return (<[k := set_lastUpdated (clock k) s]> m).
Proof.
  intros Hs. unfold apply_patch. rewrite (read_own _ _ _ Hs). cbn. do 2 f_equal.
  destruct s as [sid name desc ts act upd]. unfold set_lastUpdated, set_telcos.
  cbn. f_equal.
  destruct ts as [[c1 e1] [c2 e2] [c3 e3] [c4 e4]]. by destruct telco.
Qed.

Lemma apply_patches_own (clock : string -> string) (telco : TelcoKey)
    (es : list (string * json)) (m : ServiceMap) :
  NoDup es.*1 ->
  (forall k p, (k, p) ∈ es ->
     exists s, m !! k = Some s /\ p = telco_json (telco_get telco (telcos s))) ->
  exists m', apply_patches clock telco es m = Return m'
    /\ forall k, m' !! k
         = if decide (k ∈ es.*1) then set_lastUpdated (clock k) <$> m !! k
           else m !! k.
Proof.
  revert m. induction es as [|[k0 p0] es IH]; intros m Hnd Hown.
  - exists m. split; [done|]. intros k. cbn. by rewrite decide_False
      by apply not_elem_of_nil.
  - cbn in Hnd. apply NoDup_cons in Hnd as [Hk0 Hnd].
    destruct (Hown k0 p0) as (s0 & Hs0 & ->); [by left|].
    cbn [apply_patches]. rewrite (apply_patch_own clock telco m k0 s0 Hs0).
    destruct (IH (<[k0 := set_lastUpdated (clock k0) s0]> m) Hnd)
      as (m' & Hm' & Hlook).
    { intros k p Hin. destruct (Hown k p) as (s & Hs & ->); [by right|].
      exists s. split; [|done]. rewrite lookup_insert_ne; [done|].
      intros ->. apply Hk0. apply list_elem_of_fmap. by exists (k, telco_json (telco_get telco (telcos s))). }
    exists m'. split; [done|]. intros k. rewrite Hlook. cbn [fmap list_fmap fst].
    destruct (decide (k = k0)) as [->|Hne].
    + rewrite decide_False by done. rewrite decide_True by left.
      by rewrite lookup_insert_eq, Hs0.
    + rewrite lookup_insert_ne by done.
      destruct (decide (k ∈ es.*1)) as [Hin|Hin].
      * by rewrite decide_True by by right.
      * rewrite decide_False; [done|]. by intros [?|?]%elem_of_cons.
Qed.

(** X20.  A representative who exports the own network and imports the
    file again changes nothing but time stamps: for a catalog stored under
    its ids the import succeeds, every active entry comes back as it was
    with [lastUpdated] set to the clock reading of the import, and the
    inactive entries, which the export leaves out, are untouched. *)
Theorem subset_export_import (clock : string -> string) (C : ServiceMap)
    (telco : TelcoKey) :
  (forall k s, C !! k = Some s -> service_id s = k) ->
  exists next,
    applyTelcoSubset clock C telco (toTelcoSubset C telco) = Return next
    /\ forall k, next !! k
         = (fun s => if active s then set_lastUpdated (clock k) s else s)
             <$> C !! k.
Proof.
  intros Hkeyed.
  destruct (subset_keyed_lookup C telco Hkeyed) as (E & -> & Hlook).
  unfold applyTelcoSubset. cbn [entries].
  destruct (apply_patches_own clock telco (map_to_list E) C) as (next & Hnext & Hl).
  - apply NoDup_fst_map_to_list.
  - intros k p Hin. apply elem_of_map_to_list in Hin. rewrite Hlook in Hin.
    destruct (C !! k) as [s|]; [|done]. cbn in Hin.
    destruct (active s); [|done]. injection Hin as <-. by exists s.
  - exists next. split; [done|]. intros k. rewrite Hl.
    destruct (decide (k ∈ (map_to_list E).*1)) as [Hin|Hin].
    + apply list_elem_of_fmap in Hin as ([k' p] & -> & Hin). cbn.
      apply elem_of_map_to_list in Hin. rewrite Hlook in Hin.
      destruct (C !! k') as [s|]; [|done]. cbn in Hin |- *.
      by destruct (active s).
    + destruct (C !! k) as [s|] eqn:Hs; [|done]. cbn.
      destruct (active s) eqn:Hact; [|done].
      exfalso. apply Hin. apply list_elem_of_fmap.
      exists (k, telco_json (telco_get telco (telcos s))). split; [done|].
      apply elem_of_map_to_list. by rewrite Hlook, Hs; cbn; rewrite Hact.
Qed.

Lemma subset_export_import_witness :
  exists next,
    applyTelcoSubset (fun _ => "2025-11-03T10:00:00.000Z") Sample.catalog glo
      (toTelcoSubset Sample.catalog glo) = Return next
    /\ next !! "check_balance"
       = Some (set_lastUpdated "2025-11-03T10:00:00.000Z" Sample.check_balance).
Proof.
  destruct (subset_export_import (fun _ => "2025-11-03T10:00:00.000Z")
              Sample.catalog glo catalog_keyed) as (next & Hnext & Hl).
  exists next. split; [exact Hnext|]. rewrite Hl. vm_compute. reflexivity.
Defined.

End SubsetFiles.
Section ServiceList.
Import Api.
Import Endpoints.

(** ** The list of services *)

Lemma collect_names_listed (keep : option string) (blobs : list json) :
  Forall (fun blob => blob <> JNull) blobs ->
  collect_names (network_test keep) blobs = Return (omap (listed_name keep) blobs).
Proof.
  induction 1 as [|blob blobs Hblob _ IH]; [done|].
  assert (Hstep : collect_names (network_test keep) (blob :: blobs)
                  = match collect_names (network_test keep) blobs with
                    | Throw e => Throw e
                    | Return names =>
                        match listed_name keep blob with
                        | Some n => Return (n :: names)
                        | None => Return names
                        end
                    end).
  { destruct blob as [|b|r|s|l|props]; try done.
    cbn. destruct (collect_names (network_test keep) blobs); [|done].
    destruct (name_of props); [|done]. by destruct (network_test keep props). }
  rewrite Hstep, IH. cbn [omap list_omap].
  by destruct (listed_name keep blob).
Qed.

Lemma collect_names_null (keep : gmap string json -> bool) (blobs : list json) :
  JNull ∈ blobs -> collect_names keep blobs = Throw TypeError.
Proof.
  induction blobs as [|blob blobs IH]; [by intros ?%elem_of_nil|].
  intros [<-|Hin]%elem_of_cons; [done|].
  cbn. rewrite (IH Hin). by destruct blob.
Qed.

Lemma name_of_Some (props : gmap string json) (n : string) :
  name_of props = Some n <-> props !! "service_name" = Some (JStr n).
Proof.
  unfold name_of. destruct (props !! "service_name") as [[|b|r|s|l|o]|];
    split; try done; by intros [= ->].
Qed.

(** The test on the network, spelled out. *)
Lemma network_test_true (network : option string) (props : gmap string json) :
  network_test network props = true
  <-> network = None \/ network = Some ""
      \/ exists q, network = Some q /\ q <> ""
           /\ (truthy_opt (props !! normalizeNetwork q) = true
               \/ (props !! normalizeNetwork q = None
                   /\ inherited (normalizeNetwork q) = true)).
Proof.
  destruct network as [q|]; cbn; [|by split; auto].
  destruct (String.eqb_spec q "") as [->|Hq]; [by split; auto|].
  unfold has_network, read. split.
  - intros H. right. right. exists q. split; [done|]. split; [done|].
    destruct (props !! normalizeNetwork q) as [v|]; [by left|].
    right. split; [done|]. by destruct (inherited (normalizeNetwork q)).
  - intros [?|[[= ->]|(q' & [= <-] & _ & H)]]; [done..|].
    destruct H as [H|[-> ->]]; [|done].
    by destruct (props !! normalizeNetwork q).
Qed.

Lemma listed_name_Some (network : option string) (blob : json) (n : string) :
  listed_name network blob = Some n
  <-> exists props, blob = JObj props
        /\ props !! "service_name" = Some (JStr n)
        /\ network_test network props = true.
Proof.
  unfold listed_name. split.
  - destruct blob as [|b|r|s|l|props]; try done.
    destruct (name_of props) as [n'|] eqn:Hn; [|done].
    destruct (network_test network props) eqn:Ht; [|done].
    intros [= <-]. exists props. by rewrite <- name_of_Some.
  - intros (props & -> & Hn & Ht). apply name_of_Some in Hn.
    by rewrite Hn, Ht.
Qed.

(** X21.  The service list is sorted and complete.  When no entry of the
    data is [null], the answer is status 200 with the names in ascending
    order of code units.  A name is in the list exactly when some entry is
    an object that carries it as a string [service_name] and passes the
    test on the network: there is none when no network, or an empty one, is
    asked for; otherwise the entry has, under the normalised network, a
    truthy member of its own, or none of its own while [Object.prototype]
    has one of that name (so that [constructor] lists every service).  A
    name is listed as often as there are such entries.  When some entry is
    [null], the handler throws instead. *)
Theorem service_list_sorted (data : gmap string json) (network : option string) :
  ((forall k, data !! k <> Some JNull) ->
   exists names,
     handleListServices data network
     = Return {| status := 200; body := JArr (map JStr names) |}
     /\ Sorted String.le names
     /\ names ≡ₚ omap (listed_name network) (map snd (map_to_list data))
     /\ forall n, n ∈ names <->
          exists k props,
            data !! k = Some (JObj props)
            /\ props !! "service_name" = Some (JStr n)
            /\ (network = None \/ network = Some ""
                \/ exists q, network = Some q /\ q <> ""
                     /\ (truthy_opt (props !! normalizeNetwork q) = true
                         \/ (props !! normalizeNetwork q = None
                             /\ inherited (normalizeNetwork q) = true))))
  /\ ((exists k, data !! k = Some JNull) ->
      handleListServices data network = Throw TypeError).
Proof.
  unfold handleListServices. split.
  - intros Hnonnull.
    rewrite collect_names_listed.
    2:{ apply Forall_forall. intros blob Hin ->.
        apply list_elem_of_fmap in Hin as ([k v] & Hv & Hin). cbn in Hv. subst v.
        apply elem_of_map_to_list in Hin. by apply (Hnonnull k). }
    eexists. split; [reflexivity|]. unfold sort_names.
    split; [apply (Sorted_merge_sort _)|].
    split; [apply merge_sort_Permutation|].
    intros n. rewrite merge_sort_Permutation, list_elem_of_omap. split.
    + intros (blob & Hin & Hn).
      apply list_elem_of_fmap in Hin as ([k v] & Hv & Hin). cbn in Hv. subst v.
      apply elem_of_map_to_list in Hin.
      apply listed_name_Some in Hn as (props & -> & Hname & Htest).
      exists k, props. split; [done|]. split; [done|].
      by apply network_test_true.
    + intros (k & props & Hk & Hname & Htest). exists (JObj props). split.
      * apply list_elem_of_fmap. exists (k, JObj props). split; [done|].
        by apply elem_of_map_to_list.
      * apply listed_name_Some. exists props. split; [done|]. split; [done|].
        by apply network_test_true.
  - intros [k Hk]. rewrite collect_names_null; [done|].
    apply list_elem_of_fmap. exists (k, JNull). split; [done|].
    by apply elem_of_map_to_list.
Qed.

Lemma USSD_DATA_no_null (k : string) : USSD_DATA !! k <> Some JNull.
Proof.
  unfold USSD_DATA. intros H.
  apply lookup_insert_Some in H as [[_ H]|[_ H]]; [done|].
  apply lookup_insert_Some in H as [[_ H]|[_ H]]; [done|].
  by rewrite lookup_empty in H.
Defined.

Lemma service_list_sorted_witness :
  exists names,
    handleListServices USSD_DATA (Some " MTN ")
    = Return {| status := 200; body := JArr (map JStr names) |}
    /\ Sorted String.le names.
Proof.
  destruct (proj1 (service_list_sorted USSD_DATA (Some " MTN ")) USSD_DATA_no_null)
    as (names & H & Hs & _).
  exists names. split; [exact H | exact Hs].
Defined.

(** The list of [USSD_DATA], computed: for a network, for a word that is
    no network, and for the name of a member of [Object.prototype]. *)
Example service_list_computed :
  handleListServices USSD_DATA (Some "glo")
  = Return {| status := 200;
              body := JArr [JStr "Borrow Credit / Airtime";
                            JStr "Check Airtime Balance"] |}
  /\ handleListServices USSD_DATA (Some "vodafone")
     = Return {| status := 200; body := JArr [] |}
  /\ handleListServices USSD_DATA (Some "Constructor")
     = Return {| status := 200;
                 body := JArr [JStr "Borrow Credit / Airtime";
                               JStr "Check Airtime Balance"] |}.
Proof. repeat split; vm_compute; reflexivity. Qed.

End ServiceList.
Section CompareAndLookup.
Import Api.

Lemma normalizeNetwork_name (t : TelcoKey) :
  normalizeNetwork (telco_name t) = telco_name t.
Proof. destruct t; reflexivity. Qed.

Lemma valid_network_name (t : TelcoKey) : valid_network (telco_name t) = true.
Proof. destruct t; reflexivity. Qed.

(** X22.  [compare] and [lookup] agree.  When [lookup] finds an entry for a
    service and a network, [compare] answers 200 for the service and gives,
    for that network, the code that [lookup] gives, or [null] when that
    code is missing or falsy; and when [compare] gives a code other than
    [null] for a network, [lookup] answers 200 with that code. *)
Theorem compare_agrees_with_lookup (keys : list string)
    (data : gmap string json) (service : string) (t : TelcoKey) :
  let l := handleLookup keys data service (telco_name t) in
  let c := handleCompare keys data service in
  (status l = 200%nat ->
   status c = 200%nat
   /\ get (body c) (telco_name t)
      = Some match get (body l) "code" with
             | Some v => if truthy v then v else JNull
             | None => JNull
             end)
  /\ (status c = 200%nat ->
      forall v, get (body c) (telco_name t) = Some v -> v <> JNull ->
        status l = 200%nat /\ get (body l) "code" = Some v).
Proof.
  cbn zeta. unfold handleLookup, handleCompare.
  rewrite normalizeNetwork_name, valid_network_name. cbn [negb].
  destruct (read data (normalizeService service)) as [blob| |] eqn:Hread;
    cbn [truthy_member member_get negb truthy_opt status body].
  - destruct (truthy blob) eqn:Hblobt; cbn [negb]; [|by split].
    cbn [status body]. rewrite compare_member. unfold code_or_null.
    destruct (get blob (telco_name t)) as [entry|] eqn:Hentry.
    2:{ cbn. split; [done|]. by intros _ v [= <-]. }
    cbn [truthy_opt]. destruct (truthy entry) eqn:Hentryt; cbn [negb status body].
    + rewrite get_object_of_code. split.
      * intros _. split; [done|]. by destruct entry.
      * intros _ v Hv Hnn. split; [done|].
        destruct entry as [|b|r|s|l|props]; cbn in Hv |- *; try by simplify_eq.
        destruct (props !! "code") as [c|]; [|by simplify_eq].
        destruct (truthy c); by simplify_eq.
    + split; [done|]. intros _ v Hv Hnn.
      destruct entry as [|b|r|s|l|props]; cbn in Hv, Hentryt; by simplify_eq.
  - rewrite compare_member. split; [done|]. by intros _ v [= <-].
  - by split.
Qed.

Lemma compare_agrees_with_lookup_witness :
  status (handleCompare USSD_DATA_keys USSD_DATA "borrow_credit") = 200%nat
  /\ get (body (handleCompare USSD_DATA_keys USSD_DATA "borrow_credit")) "telecel"
     = Some (JStr "*505#").
Proof.
  destruct (proj1 (compare_agrees_with_lookup USSD_DATA_keys USSD_DATA
                     "borrow_credit" telecel))
    as [H1 H2]; [vm_compute; reflexivity|].
  split; [exact H1|].
  change "telecel" with (telco_name telecel) at 1.
  rewrite H2. vm_compute. reflexivity.
Defined.

(** For the name of a member of [Object.prototype] both endpoints answer as
    for a service without any record. *)
Example compare_of_prototype_name :
  handleCompare USSD_DATA_keys USSD_DATA "constructor"
  = {| status := 200; body := compared (fun _ => JNull) |}
  /\ status (handleLookup USSD_DATA_keys USSD_DATA "constructor" "mtn") = 404%nat.
Proof. split; vm_compute; reflexivity. Qed.

End CompareAndLookup.
Section WritingServer.
Import Api.
Import Server.

(** ** The writing server *)

Lemma spread_object (m : gmap string json) : spread (JObj m) = m.
Proof. unfold spread. cbn. apply list_to_map_to_list. Qed.

Lemma telco_of_string_normal (t : TelcoKey) :
  telco_of_string (toLowerCase (trim (telco_name t))) = Some t.
Proof. destruct t; reflexivity. Qed.

Lemma telco_name_not_service_id (t : TelcoKey) : "service_id" <> telco_name t.
Proof. destruct t; discriminate. Qed.

Lemma not_inherited_not_proto (k : string) :
  inherited k = false -> k <> "__proto__".
Proof. by intros H ->. Qed.

(** What a client reads in the answer of [lookup] depends on what the read
    of the service finds, and on nothing else in [data]. *)
Lemma read_lookup_same_read (keys keys' : list string)
    (data data' : gmap string json) (service network : string) :
  read data (normalizeService service) = read data' (normalizeService service) ->
  read_lookup (handleLookup keys data service network)
  = read_lookup (handleLookup keys' data' service network).
Proof.
  intros Hread. unfold handleLookup. rewrite Hread.
  by destruct (truthy_member (read data' (normalizeService service))).
Qed.

Lemma read_insert_ne {A : Type} (m : gmap string A) (k j : string) (v : A) :
  k <> j -> read (<[k := v]> m) j = read m j.
Proof. intros H. unfold read. by rewrite lookup_insert_ne. Qed.

Lemma read_delete_ne {A : Type} (m : gmap string A) (k j : string) :
  k <> j -> read (delete k m) j = read m j.
Proof. intros H. unfold read. by rewrite lookup_delete_ne. Qed.

(** X23.  A service that has been created is found.  A [POST] whose body
    carries a non-empty string [service_id] that is not yet in use, and
    whose normalised form is not the name of a member of
    [Object.prototype], stores the rest of the body under the normalised
    id; once the write has succeeded, [lookup] with the id as given finds,
    for each network, the record that the body held for it. *)
Theorem created_service_is_found (keys : list string)
    (data m : gmap string json) (sid : string) (t : TelcoKey) :
  m !! "service_id" = Some (JStr sid) ->
  sid <> "" ->
  truthy_opt (data !! normalizeService sid) = false ->
  inherited (normalizeService sid) = false ->
  exists e,
    post_data data (JObj m) true = Return e
    /\ status (response e) = 200%nat
    /\ written e
       = Some (<[normalizeService sid := JObj (delete "service_id" m)]> data)
    /\ read_lookup (handleLookup keys (file_after data e) sid (telco_name t))
       = Some match known (m !! telco_name t) with
              | Some entry => Found (get entry "code") (get entry "explanation")
              | None => NotFound
              end.
Proof.
  intros Hid Hne Hfree Hi. unfold post_data. cbn [get]. rewrite Hid.
  assert (String.eqb sid "" = false) as -> by by apply String.eqb_neq.
  assert (truthy_member (read data (normalizeService sid)) = false) as ->.
  { unfold read. destruct (data !! normalizeService sid); [done|]. by rewrite Hi. }
  rewrite spread_object, set_member_insert
    by (left; by apply not_inherited_not_proto).
  eexists. split; [reflexivity|]. cbn [save response written status file_after].
  split; [done|]. split; [done|].
  rewrite handleLookup_contract
    by (apply read_not_builtin; left; rewrite lookup_insert_eq; by eexists).
  f_equal. unfold lookup_contract.
  fold (normalizeService sid). rewrite lookup_insert_eq. cbn [known truthy].
  rewrite telco_of_string_normal. cbn [get].
  by rewrite lookup_delete_ne by apply telco_name_not_service_id.
Qed.

Lemma created_service_is_found_witness :
  exists e,
    post_data USSD_DATA
      (JObj (<["service_id" := JStr " Buy_Data "]>
            (<["glo" := network_blob "*777#" "Buy data on Glo."]> ∅))) true
    = Return e
    /\ read_lookup (handleLookup (USSD_DATA_keys ++ ["buy_data"])
                      (file_after USSD_DATA e) " Buy_Data " "glo")
       = Some (Found (Some (JStr "*777#")) (Some (JStr "Buy data on Glo."))).
Proof.
  destruct (created_service_is_found (USSD_DATA_keys ++ ["buy_data"]) USSD_DATA
              (<["service_id" := JStr " Buy_Data "]>
              (<["glo" := network_blob "*777#" "Buy data on Glo."]> ∅))
              " Buy_Data " glo) as (e & He & _ & _ & Hl);
    [vm_compute; reflexivity | discriminate | vm_compute; reflexivity
    | vm_compute; reflexivity |].
  exists e. split; [exact He|].
  change "glo" with (telco_name glo) at 1. rewrite Hl. vm_compute. reflexivity.
Defined.

(** A service cannot be created under the name of a member of
    [Object.prototype]: the request is refused as if the service
    existed. *)
Example create_under_prototype_name :
  post_data USSD_DATA
    (JObj (<["service_id" := JStr "Constructor"]>
          (<["glo" := network_blob "*777#" "Buy data on Glo."]> ∅))) true
  = Return (refuse 409 "Service 'Constructor' already exists").
Proof. vm_compute. reflexivity. Qed.

(** X24.  Only an accepted request writes.  Whenever one of the three
    writing handlers hands data to [writeData], its answer is 200 or, if
    the write fails, 500; a request that is refused with 400, 404 or 409
    reaches [writeData] with nothing, so the file stays as it is. *)
Theorem only_accepted_requests_write (data : gmap string json)
    (service : string) (payload : json) (ok : bool) (e : Effect) :
  e = put_data data service payload ok
  \/ e = delete_data data service ok
  \/ post_data data payload ok = Return e ->
  match written e with
  | Some _ => status (response e) = if ok then 200%nat else 500%nat
  | None =>
      (status (response e) = 400%nat \/ status (response e) = 404%nat
       \/ status (response e) = 409%nat)
      /\ file_after data e = data
  end.
Proof.
  intros [-> | [-> | H]].
  - unfold put_data.
    destruct (truthy_member (read data (normalizeService service))); cbn;
      [by destruct ok | by auto].
  - unfold delete_data.
    destruct (truthy_member (read data (normalizeService service))); cbn;
      [by destruct ok | by auto].
  - unfold post_data in H.
    destruct payload as [|b|r|s|l|m]; [done|..]; cbn [get] in H.
    1-4: injection H as <-; cbn; by auto.
    destruct (m !! "service_id") as [[|b|r|s|l|m']|]; cbn [truthy] in H.
    all: repeat match type of H with
                | context [if ?c then _ else _] => destruct c
                end; try done.
    all: injection H as <-; cbn; try by destruct ok. all: by auto.
Qed.

Lemma only_accepted_requests_write_witness :
  match written (delete_data USSD_DATA "nope" true) with
  | Some _ => status (response (delete_data USSD_DATA "nope" true)) = 200%nat
  | None =>
      (status (response (delete_data USSD_DATA "nope" true)) = 400%nat
       \/ status (response (delete_data USSD_DATA "nope" true)) = 404%nat
       \/ status (response (delete_data USSD_DATA "nope" true)) = 409%nat)
      /\ file_after USSD_DATA (delete_data USSD_DATA "nope" true) = USSD_DATA
  end.
Proof.
  apply (only_accepted_requests_write USSD_DATA "nope" JNull true
           (delete_data USSD_DATA "nope" true)).
  right. left. reflexivity.
Defined.

(** X25.  A deleted service is gone.  [DELETE] of a known service, once the
    write has succeeded, removes it and nothing else.  [lookup] then
    answers 404 for it under each of the four networks, and under any
    network at all unless its normalised name is that of a member of
    [Object.prototype]; and it answers for every other service as it did
    before. *)
Theorem deleted_service_is_gone (keys keys' : list string)
    (data : gmap string json) (service : string) :
  truthy_opt (data !! normalizeService service) = true ->
  let e := delete_data data service true in
  status (response e) = 200%nat
  /\ file_after data e = delete (normalizeService service) data
  /\ (forall network,
        valid_network (normalizeNetwork network) = true
        \/ inherited (normalizeService service) = false ->
        status (handleLookup keys' (file_after data e) service network) = 404%nat)
  /\ forall other network,
       normalizeService other <> normalizeService service ->
       read_lookup (handleLookup keys' (file_after data e) other network)
       = read_lookup (handleLookup keys data other network).
Proof.
  intros Hknown. cbn zeta. unfold delete_data.
  assert (truthy_member (read data (normalizeService service)) = true) as ->.
  { unfold read. by destruct (data !! normalizeService service). }
  cbn [save response written status file_after].
  split; [done|]. split; [done|]. split.
  - intros network Hcase. unfold handleLookup, read.
    rewrite lookup_delete_eq.
    destruct (inherited (normalizeService service)); [|done].
    destruct Hcase as [Hv|?]; [|done]. cbn. by rewrite Hv.
  - intros other network Hne. apply read_lookup_same_read.
    by apply read_delete_ne.
Qed.

Lemma deleted_service_is_gone_witness :
  status (handleLookup ["borrow_credit"]
            (file_after USSD_DATA (delete_data USSD_DATA "Check_Balance" true))
            "check_balance" "mtn") = 404%nat.
Proof.
  destruct (deleted_service_is_gone USSD_DATA_keys ["borrow_credit"] USSD_DATA
              "Check_Balance")
    as (_ & Hf & _ & _); [vm_compute; reflexivity|].
  rewrite Hf. vm_compute. reflexivity.
Defined.

(** X26.  [PUT] merges one level deep.  For a known service, once the write
    has succeeded, the stored object has every member of the update and
    keeps the members that the update does not name; the other services are
    untouched.  A network record in the update replaces the old record
    whole: [lookup] then gives the update's code and explanation, and a
    member that the update's record lacks is lost. *)
Theorem update_merges_one_level (keys : list string) (data : gmap string json)
    (service : string) (u : gmap string json) (old : json) :
  data !! normalizeService service = Some old ->
  truthy old = true ->
  let e := put_data data service (JObj u) true in
  status (response e) = 200%nat
  /\ (exists merged,
        file_after data e !! normalizeService service = Some (JObj merged)
        /\ (forall name v, u !! name = Some v -> merged !! name = Some v)
        /\ (forall name, u !! name = None -> merged !! name = spread old !! name))
  /\ (forall k, k <> normalizeService service ->
        file_after data e !! k = data !! k)
  /\ forall t record, u !! telco_name t = Some record ->
       read_lookup (handleLookup keys (file_after data e) service (telco_name t))
       = Some match known (Some record) with
              | Some entry => Found (get entry "code") (get entry "explanation")
              | None => NotFound
              end.
Proof.
  intros Hold Htruthy. cbn zeta. unfold put_data.
  rewrite (read_own _ _ _ Hold). cbn [truthy_member spread_member].
  rewrite Htruthy. cbn [negb].
  rewrite set_member_insert by (right; by eexists).
  cbn [save response written status file_after]. rewrite spread_object.
  split; [done|]. split; [|split].
  - exists (u ∪ spread old). split; [apply lookup_insert_eq|]. split.
    + intros name v Hv. by apply lookup_union_Some_l.
    + intros name Hn. by apply lookup_union_r.
  - intros k Hk. by rewrite lookup_insert_ne.
  - intros t record Hrec.
    rewrite handleLookup_contract
      by (apply read_not_builtin; left; rewrite lookup_insert_eq; by eexists).
    f_equal. unfold lookup_contract. fold (normalizeService service).
    rewrite lookup_insert_eq. cbn [known truthy].
    rewrite telco_of_string_normal. cbn [get].
    by rewrite (lookup_union_Some_l _ _ _ _ Hrec).
Qed.

Lemma update_merges_one_level_witness :
  read_lookup
    (handleLookup USSD_DATA_keys
       (file_after USSD_DATA
          (put_data USSD_DATA "check_balance"
             (JObj {[ "mtn" := JObj {[ "code" := JStr "*125#" ]} ]}) true))
       "check_balance" "mtn")
  = Some (Found (Some (JStr "*125#")) None).
Proof.
  destruct (update_merges_one_level USSD_DATA_keys USSD_DATA "check_balance"
              {[ "mtn" := JObj {[ "code" := JStr "*125#" ]} ]}
              (JObj (<["service_name" := JStr "Check Airtime Balance"]>
                    (<["mtn" := network_blob "*124#" "Checks your main airtime balance on MTN."]>
                    (<["telecel" := network_blob "*124#" "Checks your main airtime balance on Telecel."]>
                    (<["airteltigo" := network_blob "*134#" "Checks your main airtime balance on AirtelTigo."]>
                    (<["glo" := network_blob "*124#" "Checks your main airtime balance on Glo."]> ∅)))))))
    as (_ & _ & _ & H); [vm_compute; reflexivity | reflexivity |].
  change "mtn" with (telco_name mtn) at 2.
  rewrite (H mtn (JObj {[ "code" := JStr "*125#" ]})); vm_compute; reflexivity.
Defined.

(** An update under [__proto__], which the file does not hold, is accepted
    and changes nothing in the file. *)
Example update_under_proto :
  put_data USSD_DATA "__proto__" (JObj {[ "mtn" := JObj {[ "code" := JStr "*1#" ]} ]})
    true
  = save USSD_DATA true "Service '__proto__' updated".
Proof. vm_compute. reflexivity. Qed.

(** X27.  Nothing is written without write access.  A handler registered
    behind [requireWriteAccess] hands data to [writeData] only if write
    operations are enabled and, when an API key is configured, the request
    carries that key; otherwise the answer is 403, respectively 401, and
    the handler is not run. *)
Theorem writes_need_access (cfg : Config) (header : option string)
    (handler : Effect) :
  let e := protected cfg header handler in
  (forall d, written e = Some d ->
     enable_write_operations cfg = true
     /\ (forall key, api_key cfg = Some key -> key <> "" -> header = Some key)
     /\ e = handler)
  /\ (enable_write_operations cfg = false ->
      status (response e) = 403%nat /\ written e = None)
  /\ (enable_write_operations cfg = true ->
      forall key, api_key cfg = Some key -> key <> "" -> header <> Some key ->
        status (response e) = 401%nat /\ written e = None).
Proof.
  cbn zeta. unfold protected, requireWriteAccess.
  destruct (enable_write_operations cfg); cbn [negb].
  2:{ split; [by intros d [=]|]. split; [done|]. by intros [=]. }
  destruct (api_key cfg) as [key|].
  2:{ split; [|split; [done|by intros _ key [=]]].
      intros d Hd. split; [done|]. split; [by intros key [=] | done]. }
  destruct (String.eqb_spec key "") as [->|Hkey]; cbn [negb andb].
  { split; [|split; [done|by intros _ key [= <-]]].
    intros d Hd. split; [done|]. split; [by intros key [= <-] | done]. }
  destruct (decide (header = Some key)) as [->|Hh].
  - rewrite bool_decide_eq_true_2 by done. cbn [negb].
    split; [|split; [done|by intros _ key' [= <-] _ ?]].
    intros d Hd. split; [done|]. split; [by intros key' [= <-] | done].
  - rewrite bool_decide_eq_false_2 by done. cbn [negb].
    split; [by intros d [=]|]. split; [done|]. by intros _ key' [= <-] _ _.
Qed.

Lemma writes_need_access_witness :
  status (response
            (protected {| enable_write_operations := false; api_key := None |}
               None (delete_data USSD_DATA "check_balance" true))) = 403%nat
  /\ written
       (protected {| enable_write_operations := false; api_key := None |}
          None (delete_data USSD_DATA "check_balance" true)) = None.
Proof.
  apply (writes_need_access
           {| enable_write_operations := false; api_key := None |} None
           (delete_data USSD_DATA "check_balance" true)).
  reflexivity.
Defined.

End WritingServer.
